(** * The PostgreSQL MCP servers of [nyc_taxi_data]

    A shallow embedding of the two servers of the repository:

    - [query_tool.py]: a line-oriented JSON-RPC loop on standard input and
      output ([main]), its handlers ([handle_initialize], [handle_tools_list],
      [handle_tools_call], [send_error_response]) and its query function
      [query_db] over a psycopg2 connection;
    - [mcp_server2.py]: the query executor [execute_query] over an asyncpg
      connection pool and the tool [execute_sql] built on it.

    Python values that travel through JSON are the inductive type [json];
    Python dictionaries are association lists without duplicate keys, kept
    in insertion order.  Code that can raise is written in a state and
    exception monad, with [try_except] for the [try] blocks of the source.
    What the source takes from outside the repository is a parameter: the
    functions [json.loads], [json.dumps] and [str] of the Python runtime
    (class [PyRuntime]), and the database drivers, whose answers are given
    by oracles that see every call made so far (classes [Psycopg2] and
    [Asyncpg]).  [json.loads] returns or raises, and what it raises need
    not be a [JSONDecodeError].  The loop of [main] hands from one turn
    to the next the database and its local [req]; standard input is a
    list of texts, the lines already decoded.  A psycopg2 connection is
    closed by [conn.close()], or by CPython when the last reference to
    it goes.  Texts are strings of ASCII characters. *)

From Stdlib Require Import ZArith List String Ascii Bool Lia.
From Stdlib Require Import DecimalString DecimalNat.
Import ListNotations.

Set Warnings "-register-all".

Open Scope string_scope.
Open Scope list_scope.

(* ================================================================== *)
(** * Part I: the model *)
(* ================================================================== *)

(** ** Python's [str] methods used by the servers *)

Module Text.

Definition code (c : ascii) : nat := nat_of_ascii c.

Definition between (lo hi n : nat) : bool := (lo <=? n)%nat && (n <=? hi)%nat.

(** [c.isspace()]: tab, line feed, vertical tab, form feed, carriage
    return, the four separators 28 to 31, and the space. *)
Definition isspace (c : ascii) : bool :=
  between 9 13 (code c) || between 28 32 (code c).

(** ['0' <= c <= '9'] *)
Definition isdigit_char (c : ascii) : bool := between 48 57 (code c).

Definition lower_char (c : ascii) : ascii :=
  if between 65 90 (code c) then ascii_of_nat (code c + 32) else c.

(** [s.lower()] *)
Fixpoint lower (s : string) : string :=
  match s with
  | EmptyString => EmptyString
  | String c s' => String (lower_char c) (lower s')
  end.

(** [s.lstrip()] *)
Fixpoint lstrip (s : string) : string :=
  match s with
  | EmptyString => EmptyString
  | String c s' => if isspace c then lstrip s' else s
  end.

(** [s.rstrip()] *)
Fixpoint rstrip (s : string) : string :=
  match s with
  | EmptyString => EmptyString
  | String c s' =>
      match rstrip s' with
      | EmptyString => if isspace c then EmptyString else String c EmptyString
      | r => String c r
      end
  end.

(** [s.strip()] *)
Definition strip (s : string) : string := rstrip (lstrip s).

(** [s.startswith(p)] *)
Definition startswith (p s : string) : bool := String.prefix p s.

(** [s.split()]: the maximal runs of characters that are not spaces.
    [cur] is the run being read. *)
Fixpoint split_from (cur s : string) : list string :=
  match s with
  | EmptyString => if cur =? "" then [] else [cur]
  | String c s' =>
      if isspace c
      then (if cur =? "" then split_from "" s' else cur :: split_from "" s')
      else split_from (cur ++ String c "") s'
  end.

Definition split (s : string) : list string := split_from "" s.

(** No character of [s] is a space. *)
Fixpoint no_space (s : string) : bool :=
  match s with
  | EmptyString => true
  | String c s' => negb (isspace c) && no_space s'
  end.

(** Every character of [s] is a space. *)
Fixpoint all_spaces (s : string) : bool :=
  match s with
  | EmptyString => true
  | String c s' => isspace c && all_spaces s'
  end.

Fixpoint all_digits (s : string) : bool :=
  match s with
  | EmptyString => true
  | String c s' => isdigit_char c && all_digits s'
  end.

(** [s.isdigit()]: at least one character, and only digits. *)
Definition isdigit (s : string) : bool := negb (s =? "") && all_digits s.

Definition digit_value (c : ascii) : Z := Z.of_nat (code c - 48).

Fixpoint int_from (acc : Z) (s : string) : Z :=
  match s with
  | EmptyString => acc
  | String c s' => int_from (10 * acc + digit_value c) s'
  end.

(** [int(s)] on a text of digits. *)
Definition int (s : string) : Z := int_from 0 s.

(** [str(n)] for a natural number. *)
Definition of_nat (n : nat) : string := NilEmpty.string_of_uint (Nat.to_uint n).

(** [str(z)] for an integer. *)
Definition of_Z (z : Z) : string :=
  if (z <? 0)%Z then "-" ++ of_nat (Z.to_nat (- z)) else of_nat (Z.to_nat z).

(** The line feed. *)
Definition nl : string := String (ascii_of_nat 10) "".

(** [sep.join(l)] *)
Fixpoint join (sep : string) (l : list string) : string :=
  match l with
  | [] => ""
  | [x] => x
  | x :: l' => x ++ sep ++ join sep l'
  end.

End Text.

(** ** JSON values, as [json.loads] builds them *)

Module Json.

(** [JNull] is [None], [JInt] a Python [int], [JFloat] a Python [float]
    given by its [repr], [JArr] a [list] and [JObj] a [dict]. *)
Inductive json : Type :=
| JNull
| JBool (b : bool)
| JInt (z : Z)
| JFloat (repr : string)
| JStr (s : string)
| JArr (items : list json)
| JObj (members : list (string * json)).

Definition dict : Type := list (string * json).

(** [k in d] *)
Fixpoint has_key (k : string) (d : dict) : bool :=
  match d with
  | [] => false
  | (k', _) :: d' => (k' =? k) || has_key k d'
  end.

Fixpoint lookup (k : string) (d : dict) : option json :=
  match d with
  | [] => None
  | (k', v) :: d' => if k' =? k then Some v else lookup k d'
  end.

(** [d.get(k, default)] *)
Definition get_or (k : string) (default : json) (d : dict) : json :=
  match lookup k d with
  | Some v => v
  | None => default
  end.

(** [d.get(k)] *)
Definition get (k : string) (d : dict) : json := get_or k JNull d.

(** [d[k] = v]: a key already present keeps its place. *)
Fixpoint set (k : string) (v : json) (d : dict) : dict :=
  match d with
  | [] => [(k, v)]
  | (k', v') :: d' => if k' =? k then (k, v) :: d' else (k', v') :: set k v d'
  end.

(** [dict(pairs)] *)
Definition of_pairs (pairs : list (string * json)) : dict :=
  fold_left (fun d kv => set (fst kv) (snd kv) d) pairs [].

(** The truth value of a Python object, as [not v] and [if v] test it. *)
Definition truthy (v : json) : bool :=
  match v with
  | JNull => false
  | JBool b => b
  | JInt z => negb (z =? 0)%Z
  | JFloat r => negb ((r =? "0.0") || (r =? "-0.0"))
  | JStr s => negb (s =? "")
  | JArr items => match items with [] => false | _ => true end
  | JObj members => match members with [] => false | _ => true end
  end.

(** [v == s] for a [str] literal [s]. *)
Definition eq_str (v : json) (s : string) : bool :=
  match v with
  | JStr s' => s' =? s
  | _ => false
  end.

(** [v is None] *)
Definition is_none (v : json) : bool :=
  match v with
  | JNull => true
  | _ => false
  end.

(** [type(v).__name__] *)
Definition type_name (v : json) : string :=
  match v with
  | JNull => "NoneType"
  | JBool _ => "bool"
  | JInt _ => "int"
  | JFloat _ => "float"
  | JStr _ => "str"
  | JArr _ => "list"
  | JObj _ => "dict"
  end.

End Json.

Import Json.

(** ** Exceptions, and the monad of code that raises and has effects *)

(** The exceptions met.  [ValueError] stands for a [ValueError] that is no
    [JSONDecodeError], its subclass; [UnboundLocalError] carries the name
    of the local that was read before it was assigned. *)
Inductive exn : Type :=
| KeyError (key : string)
| AttributeError (message : string)
| TypeError (message : string)
| JSONDecodeError (message : string)
| ValueError (message : string)
| RecursionError (message : string)
| UnboundLocalError (name : string)
| DriverError (message : string).

(** [str(e)] *)
Definition str_exn (e : exn) : string :=
  match e with
  | KeyError key => "'" ++ key ++ "'"
  | AttributeError m => m
  | TypeError m => m
  | JSONDecodeError m => m
  | ValueError m => m
  | RecursionError m => m
  | UnboundLocalError name =>
      "cannot access local variable '" ++ name ++
      "' where it is not associated with a value"
  | DriverError m => m
  end.

(** [isinstance(e, json.JSONDecodeError)] *)
Definition is_json_decode_error (e : exn) : bool :=
  match e with
  | JSONDecodeError _ => true
  | _ => false
  end.

Inductive res (A : Type) : Type :=
| Ok (a : A)
| Raise (e : exn).

Arguments Ok {A} a.
Arguments Raise {A} e.

(** A computation over a state [S]: it returns or raises, and leaves a
    state in both cases. *)
Definition M (S A : Type) : Type := S -> res A * S.

Definition ret {S A : Type} (a : A) : M S A := fun st => (Ok a, st).

Definition raise {S A : Type} (e : exn) : M S A := fun st => (Raise e, st).

Definition bind {S A B : Type} (m : M S A) (k : A -> M S B) : M S B :=
  fun st =>
    match m st with
    | (Ok a, st') => k a st'
    | (Raise e, st') => (Raise e, st')
    end.

(** [try: m  except Exception as e: handler(e)] *)
Definition try_except {S A : Type} (m : M S A) (handler : exn -> M S A) : M S A :=
  fun st =>
    match m st with
    | (Ok a, st') => (Ok a, st')
    | (Raise e, st') => handler e st'
    end.

(** A computation that raises but has no effect. *)
Definition lift {S A : Type} (r : res A) : M S A := fun st => (r, st).

Declare Scope py_scope.
Delimit Scope py_scope with py.
Notation "x <- m ;; k" := (bind m (fun x => k))
  (at level 61, m at next level, right associativity) : py_scope.
Notation "m ;;; k" := (bind m (fun _ => k))
  (at level 61, right associativity) : py_scope.

(** [d[k]] *)
Definition subscript (d : dict) (k : string) : res json :=
  match lookup k d with
  | Some v => Ok v
  | None => Raise (KeyError k)
  end.

Definition no_attribute (v : json) (attr : string) : exn :=
  AttributeError ("'" ++ type_name v ++ "' object has no attribute '" ++ attr ++ "'").

(** The receiver of [v.get(...)]: only a [dict] has the method. *)
Definition as_dict (v : json) : res dict :=
  match v with
  | JObj d => Ok d
  | _ => Raise (no_attribute v "get")
  end.

(** The receiver of [v.strip()]: only a [str] has the method. *)
Definition as_str (v : json) : res string :=
  match v with
  | JStr s => Ok s
  | _ => Raise (no_attribute v "strip")
  end.

(** The functions of the Python runtime that the servers call. *)
Class PyRuntime : Type := {
  (** [json.loads(text)]: it returns the value decoded, or raises.  It
      raises [JSONDecodeError] on a text that is no JSON text, and other
      exceptions on some texts, JSON texts or not: [ValueError] on an
      integer literal of more digits than [int] converts, and
      [RecursionError] on brackets nested too deep. *)
  json_loads : string -> res json;
  (** [json.dumps(v, indent=2, default=str)] *)
  json_dumps : json -> string;
  (** [str(v)], as an f-string formats [v] *)
  py_str : json -> string
}.

Open Scope py_scope.

(* ------------------------------------------------------------------ *)
(** ** [query_tool.py] *)
(* ------------------------------------------------------------------ *)

Module QueryTool.

(** The calls that [query_db] makes to psycopg2, in the order made.
    [conn.cursor()] has no effect of its own and is not recorded.  The
    last one is no call of the source: it records that psycopg2 closed a
    connection because the connection object was freed while open. *)
Inductive db_call : Type :=
| Connect
| Execute (sql : json)
| Fetchall
| Commit
| CursorClose
| ConnectionClose
| ConnectionDealloc.

(** The database as the server sees it: the connections that were opened
    and not closed, and the calls made so far. *)
Record db_state : Type := {
  open_connections : nat;
  calls : list db_call
}.

(** The result set of a cursor: the names in [cur.description] and the
    rows of [cur.fetchall()]. *)
Definition result_set : Type := (list string * list (list json))%type.

(** The driver.  Each oracle tells, in the state the call is made in,
    whether the call returns or raises. *)
Class Psycopg2 : Type := {
  connect_outcome : db_state -> res unit;
  execute_outcome : db_state -> json -> res unit;
  fetchall_outcome : db_state -> res result_set;
  commit_outcome : db_state -> res unit
}.

Definition called (c : db_call) (opened closed : nat) (st : db_state) : db_state :=
  {| open_connections := open_connections st + opened - closed;
     calls := calls st ++ [c] |}.

Section Server.

Context {runtime : PyRuntime} {driver : Psycopg2}.

(** [psycopg2.connect]: a connection is open once it returns. *)
Definition psycopg2_connect : M db_state unit :=
  fun st =>
    match connect_outcome st with
    | Ok _ => (Ok tt, called Connect 1 0 st)
    | Raise e => (Raise e, called Connect 0 0 st)
    end.

(** [cur.execute(sql)] *)
Definition cursor_execute (sql : json) : M db_state unit :=
  fun st => (execute_outcome st sql, called (Execute sql) 0 0 st).

(** [cur.fetchall()] and [cur.description] *)
Definition cursor_fetchall : M db_state result_set :=
  fun st => (fetchall_outcome st, called Fetchall 0 0 st).

(** [conn.commit()] *)
Definition connection_commit : M db_state unit :=
  fun st => (commit_outcome st, called Commit 0 0 st).

(** [cur.close()] *)
Definition cursor_close : M db_state unit :=
  fun st => (Ok tt, called CursorClose 0 0 st).

(** [conn.close()] *)
Definition connection_close : M db_state unit :=
  fun st => (Ok tt, called ConnectionClose 0 1 st).

(** [sql[:100]], evaluated for the log line: a [str] and a [list] can be
    sliced, nothing else that JSON decodes to can. *)
Definition slice_100 (sql : json) : res unit :=
  match sql with
  | JStr _ | JArr _ => Ok tt
  | JObj _ => Raise (TypeError "unhashable type: 'slice'")
  | _ => Raise (TypeError ("'" ++ type_name sql ++ "' object is not subscriptable"))
  end.

(** [[dict(zip(cols, row)) for row in rows]] *)
Definition rows_as_dicts (rs : result_set) : json :=
  JArr (map (fun row => JObj (of_pairs (combine (fst rs) row))) (snd rs)).

(** The return of [query_db].  The locals [conn] and [cur] hold the only
    references to the connection; CPython frees the locals of a function
    when it returns, and psycopg2 closes a connection that is freed while
    open.  A call opens one connection at most and closes no other, so
    its connection is still open exactly when one more connection is
    open than in [entry], the state at the call. *)
Definition free_locals (entry st : db_state) : db_state :=
  if (open_connections entry <? open_connections st)%nat
  then called ConnectionDealloc 0 1 st
  else st.

Definition query_db (sql : json) : M db_state dict :=
  fun entry =>
    let (r, st) :=
      try_except
        (lift (slice_100 sql) ;;;
         psycopg2_connect ;;;
         cursor_execute sql ;;;
         text <- lift (as_str sql) ;;
         result <- (if Text.startswith "select" (Text.lower (Text.strip text))
                    then rs <- cursor_fetchall ;; ret (rows_as_dicts rs)
                    else connection_commit ;;;
                         ret (JObj [("status", JStr "Query executed successfully")])) ;;
         cursor_close ;;;
         connection_close ;;;
         ret [("result", result)])
        (fun e => ret [("error", JStr (str_exn e))])
        entry in
    (r, free_locals entry st).

(** The exception that the driver raises while [query_db] runs the text
    [sql] from the state [st], if it raises one: at [connect], at
    [execute], or at [fetchall] or [commit]. *)
Definition driver_raises (sql : string) (st : db_state) : option exn :=
  match connect_outcome st with
  | Raise e => Some e
  | Ok _ =>
      let st1 := called Connect 1 0 st in
      match execute_outcome st1 (JStr sql) with
      | Raise e => Some e
      | Ok _ =>
          let st2 := called (Execute (JStr sql)) 0 0 st1 in
          if Text.startswith "select" (Text.lower (Text.strip sql)) then
            match fetchall_outcome st2 with
            | Raise e => Some e
            | Ok _ => None
            end
          else
            match commit_outcome st2 with
            | Raise e => Some e
            | Ok _ => None
            end
      end
  end.

Definition handle_initialize (req : dict) : M db_state json :=
  id <- lift (subscript req "id") ;;
  ret (JObj
         [("jsonrpc", JStr "2.0");
          ("id", id);
          ("result",
            JObj [("protocolVersion", JStr "2024-11-05");
                  ("capabilities", JObj [("tools", JObj [])]);
                  ("serverInfo",
                    JObj [("name", JStr "postgres-query-server");
                          ("version", JStr "1.0.0")])])]).

Definition query_database_tool : json :=
  JObj
    [("name", JStr "query_database");
     ("description",
       JStr "Execute a SQL query on the PostgreSQL database and return results");
     ("inputSchema",
       JObj [("type", JStr "object");
             ("properties",
               JObj [("sql",
                       JObj [("type", JStr "string");
                             ("description", JStr "The SQL query to execute")])]);
             ("required", JArr [JStr "sql"])])].

Definition handle_tools_list (req : dict) : M db_state json :=
  id <- lift (subscript req "id") ;;
  ret (JObj
         [("jsonrpc", JStr "2.0");
          ("id", id);
          ("result", JObj [("tools", JArr [query_database_tool])])]).

(** [{"jsonrpc": "2.0", "id": id, "error": {"code": code, "message": message}}] *)
Definition error_frame (id : json) (code : Z) (message : string) : json :=
  JObj
    [("jsonrpc", JStr "2.0");
     ("id", id);
     ("error", JObj [("code", JInt code); ("message", JStr message)])].

(** [{"jsonrpc": "2.0", "id": id, "result": result}] *)
Definition result_frame (id : json) (result : json) : json :=
  JObj [("jsonrpc", JStr "2.0"); ("id", id); ("result", result)].

Definition handle_tools_call (req : dict) : M db_state json :=
  let params := get_or "params" (JObj []) req in
  params_dict <- lift (as_dict params) ;;
  let tool_name := get "name" params_dict in
  let arguments := get_or "arguments" (JObj []) params_dict in
  if negb (eq_str tool_name "query_database") then
    id <- lift (subscript req "id") ;;
    ret (error_frame id (-32602) ("Unknown tool: " ++ py_str tool_name))
  else
    arguments_dict <- lift (as_dict arguments) ;;
    let sql := get_or "sql" (JStr "") arguments_dict in
    if negb (truthy sql) then
      id <- lift (subscript req "id") ;;
      ret (error_frame id (-32602) "Missing required parameter: sql")
    else
      result <- query_db sql ;;
      id <- lift (subscript req "id") ;;
      if has_key "error" result then
        error <- lift (subscript result "error") ;;
        ret (error_frame id (-32001) ("Database error: " ++ py_str error))
      else
        rows <- lift (subscript result "result") ;;
        ret (result_frame id
               (JObj [("content",
                        JArr [JObj [("type", JStr "text");
                                    ("text", JStr (json_dumps rows))]])])).

(** The frames that [send_error_response] prints: one when the request
    has an id that is not [None], none otherwise. *)
Definition send_error_response (req : dict) (code : Z) (message : string) : list json :=
  match lookup "id" req with
  | Some id => if is_none id then [] else [error_frame id code message]
  | None => []
  end.

(** The [try] block of [main] from [req.get("method")] on, for the value
    [req] that [json.loads] returned: the frames it prints. *)
Definition dispatch (req : json) : M db_state (list json) :=
  req_dict <- lift (as_dict req) ;;
  let method := get "method" req_dict in
  if eq_str method "initialize" then
    resp <- handle_initialize req_dict ;; ret [resp]
  else if eq_str method "tools/list" then
    resp <- handle_tools_list req_dict ;; ret [resp]
  else if eq_str method "tools/call" then
    resp <- handle_tools_call req_dict ;; ret [resp]
  else if eq_str method "resources/list" then
    id <- lift (subscript req_dict "id") ;;
    ret [result_frame id (JObj [("resources", JArr [])])]
  else if eq_str method "prompts/list" then
    id <- lift (subscript req_dict "id") ;;
    ret [result_frame id (JObj [("prompts", JArr [])])]
  else
    ret (send_error_response req_dict (-32601)
           ("Method " ++ py_str method ++ " not found.")).

(** [req.get("id") if isinstance(req, dict) else None] *)
Definition best_effort_id (req : json) : json :=
  match req with
  | JObj req_dict => get "id" req_dict
  | _ => JNull
  end.

(** What one turn of the loop of [main] leaves to the next: the local
    [req], which is unbound until [json.loads] has returned once and
    keeps its value in a turn where [json.loads] raises, and the
    database. *)
Record loop_state : Type := {
  req_local : option json;
  database : db_state
}.

(** The state in which [main] enters its loop. *)
Definition start (st : db_state) : loop_state :=
  {| req_local := None; database := st |}.

(** The state after a turn that decoded [req] and left the database [st]. *)
Definition decoded (req : json) (st : db_state) : loop_state :=
  {| req_local := Some req; database := st |}.

Definition on_database {A : Type} (m : M db_state A) : M loop_state A :=
  fun s =>
    let (r, st) := m (database s) in
    (r, {| req_local := req_local s; database := st |}).

(** [req = json.loads(line)]: [req] is bound when the call returns. *)
Definition assign_req (line : string) : M loop_state json :=
  fun s =>
    match json_loads line with
    | Ok req => (Ok req, decoded req (database s))
    | Raise e => (Raise e, s)
    end.

(** The local [req], read. *)
Definition read_req : M loop_state json :=
  fun s =>
    match req_local s with
    | Some req => (Ok req, s)
    | None => (Raise (UnboundLocalError "req"), s)
    end.

(** One turn of the loop of [main] on a line that [readline] returned:
    the frames printed on standard output, or the exception that leaves
    the loop.  The first handler is [except json.JSONDecodeError], the
    second [except Exception]; the second reads the local [req], which
    holds the value decoded in this turn when [json.loads] returned, and
    what an earlier turn left when [json.loads] raised. *)
Definition main_iteration (line : string) : M loop_state (list json) :=
  let line := Text.strip line in
  if line =? "" then ret []
  else
    try_except
      (req <- assign_req line ;;
       on_database (dispatch req))
      (fun e =>
         if is_json_decode_error e then
           ret [error_frame JNull (-32700) "Parse error"]
         else
           req <- read_req ;;
           ret [error_frame (best_effort_id req) (-32603)
                  ("Internal error: " ++ str_exn e)]).

(** A run of the loop: the frames printed on standard output, how the
    loop ended ([Ok] when the stream ended, [Raise e] when [e] left the
    loop and ended the process), and the state at that point. *)
Record run : Type := {
  printed : list json;
  ending : res unit;
  final : loop_state
}.

(** The loop of [main]: [stdin] is what [readline] returns call after
    call, and an empty text is the end of the stream, as it is when the
    list is over. *)
Fixpoint main_loop (stdin : list string) (s : loop_state) : run :=
  match stdin with
  | [] => {| printed := []; ending := Ok tt; final := s |}
  | line :: rest =>
      if line =? "" then {| printed := []; ending := Ok tt; final := s |}
      else
        match main_iteration line s with
        | (Ok frames, s1) =>
            let r := main_loop rest s1 in
            {| printed := frames ++ printed r; ending := ending r; final := final r |}
        | (Raise e, s1) => {| printed := []; ending := Raise e; final := s1 |}
        end
  end.

(** [main] enters the loop with [req] unbound. *)
Definition main (stdin : list string) (st : db_state) : run :=
  main_loop stdin (start st).

End Server.

End QueryTool.

(* ------------------------------------------------------------------ *)
(** ** [mcp_server2.py] *)
(* ------------------------------------------------------------------ *)

Module McpServer2.

(** The calls that [execute_query] makes to the asyncpg pool and to the
    connection it holds, in the order made. *)
Inductive pool_call : Type :=
| Acquire
| Fetch (sql : string)
| Execute (sql : string)
| Release.

(** The pool as the server sees it: the connections acquired and not
    released, and the calls made so far. *)
Record pool_state : Type := {
  held : nat;
  calls : list pool_call
}.

(** A value of a fetched row: a [datetime], given by what its
    [isoformat()] returns, or any other value. *)
Inductive db_value : Type :=
| Datetime (isoformat : string)
| Plain (v : json).

(** An [asyncpg.Record], as [row.items()] lists it. *)
Definition record : Type := list (string * db_value).

(** The driver.  Each oracle tells, in the state the call is made in,
    whether the call returns or raises. *)
Class Asyncpg : Type := {
  acquire_outcome : pool_state -> res unit;
  fetch_outcome : pool_state -> string -> res (list record);
  execute_outcome : pool_state -> string -> res string
}.

(** The three dictionaries that [execute_query] returns:
    [{'success': True, 'type': 'select', 'rows': _, 'row_count': _}],
    [{'success': True, 'type': 'modification', 'message': _, 'affected_rows': _}]
    and [{'success': False, 'error': _, 'sql': _}]. *)
Inductive query_result : Type :=
| Select (rows : list dict) (row_count : nat)
| Modification (message : string) (affected_rows : Z)
| Failure (error : string) (sql : string).

Definition called (c : pool_call) (acquired released : nat) (st : pool_state) : pool_state :=
  {| held := held st + acquired - released;
     calls := calls st ++ [c] |}.

Section Server.

Context {runtime : PyRuntime} {driver : Asyncpg}.

(** Entering [async with db_pool.acquire() as conn]. *)
Definition pool_acquire : M pool_state unit :=
  fun st =>
    match acquire_outcome st with
    | Ok _ => (Ok tt, called Acquire 1 0 st)
    | Raise e => (Raise e, called Acquire 0 0 st)
    end.

(** Leaving the [async with] block, by a [return] or by an exception. *)
Definition pool_release (st : pool_state) : pool_state := called Release 0 1 st.

(** [async with db_pool.acquire() as conn: body] *)
Definition with_connection {A : Type} (body : M pool_state A) : M pool_state A :=
  pool_acquire ;;;
  (fun st => let (r, st') := body st in (r, pool_release st')).

(** [conn.fetch(sql)] *)
Definition connection_fetch (sql : string) : M pool_state (list record) :=
  fun st => (fetch_outcome st sql, called (Fetch sql) 0 0 st).

(** [conn.execute(sql)]: the status text of the command. *)
Definition connection_execute (sql : string) : M pool_state string :=
  fun st => (execute_outcome st sql, called (Execute sql) 0 0 st).

(** The [row_dict] built from one row. *)
Definition row_dict (row : record) : dict :=
  fold_left
    (fun d item =>
       match snd item with
       | Datetime isoformat => set (fst item) (JStr isoformat) d
       | Plain v => set (fst item) v d
       end)
    row [].

(** The [row_count] that the modification branch reads off the status
    text [result]. *)
Definition row_count_of_status (result : string) : Z :=
  if negb (result =? "") then
    let parts := Text.split result in
    if (2 <=? List.length parts)%nat && Text.isdigit (last parts "")
    then Text.int (last parts "")
    else 0%Z
  else 0%Z.

(** The test of the [if] in [execute_query]. *)
Definition is_select (sql : string) : bool :=
  let sql_lower := Text.lower (Text.strip sql) in
  Text.startswith "select" sql_lower || Text.startswith "with" sql_lower.

Definition execute_query (sql : string) : M pool_state query_result :=
  try_except
    (with_connection
       (if is_select sql then
          rows <- connection_fetch sql ;;
          let results := map row_dict rows in
          ret (Select results (List.length results))
        else
          result <- connection_execute sql ;;
          ret (Modification result (row_count_of_status result))))
    (fun e => ret (Failure (str_exn e) sql)).

(** The exception that the driver raises while [execute_query] runs
    [sql] from the state [st], if it raises one: at the acquisition, or
    at [fetch] or [execute]. *)
Definition driver_raises (sql : string) (st : pool_state) : option exn :=
  match acquire_outcome st with
  | Raise e => Some e
  | Ok _ =>
      let st1 := called Acquire 1 0 st in
      if is_select sql then
        match fetch_outcome st1 sql with
        | Raise e => Some e
        | Ok _ => None
        end
      else
        match execute_outcome st1 sql with
        | Raise e => Some e
        | Ok _ => None
        end
  end.

Definition rows_json (rows : list dict) : json := JArr (map JObj rows).

(** The text that [execute_sql] builds from the result. *)
Definition format_result (result : query_result) : string :=
  match result with
  | Select rows row_count =>
      let response :=
        ("Query executed successfully." ++ Text.nl ++
         "Returned " ++ Text.of_nat row_count ++ " rows." ++ Text.nl ++ Text.nl)%string in
      match rows with
      | [] => response ++ "No rows returned."
      | _ =>
          if (List.length rows <=? 100)%nat then
            response ++ "Results:" ++ Text.nl ++ json_dumps (rows_json rows)
          else
            response ++
            "Large result set (" ++ Text.of_nat (List.length rows) ++
            " rows). Showing first 10:" ++ Text.nl ++
            json_dumps (rows_json (firstn 10 rows)) ++
            Text.nl ++ "... and " ++ Text.of_nat (List.length rows - 10) ++ " more rows"
      end
  | Modification message affected_rows =>
      "Query executed successfully." ++ Text.nl ++ message ++ Text.nl ++
      "Affected rows: " ++ Text.of_Z affected_rows
  | Failure error sql =>
      "Query failed: " ++ error ++ Text.nl ++ "SQL: " ++ sql
  end.

(** The SQL text that [execute_sql] hands to [execute_query]. *)
Definition with_explain (sql : string) (explain_plan : bool) : string :=
  if explain_plan && Text.startswith "select" (Text.strip (Text.lower sql))
  then "EXPLAIN ANALYZE " ++ sql
  else sql.

Definition execute_sql (sql : string) (explain_plan : bool) : M pool_state string :=
  if Text.strip sql =? "" then ret "Error: No SQL query provided"
  else
    result <- execute_query (with_explain sql explain_plan) ;;
    ret (format_result result).

End Server.

(** *** The schema cache *)

(** A row of the answer to the introspection query: [table_name] comes
    from [information_schema.tables]; the other five columns come from
    the two [LEFT JOIN]s and are [None] where a join finds nothing. *)
Record schema_row : Type := {
  table_name : string;
  column_name : option string;
  data_type : option string;
  is_nullable : option string;
  column_default : option string;
  constraint_type : option string
}.

(** The dictionary that [cache_schema_info] appends to [columns]:
    [{'name': _, 'type': _, 'nullable': _, 'default': _}]. *)
Record column_info : Type := {
  col_name : string;
  col_type : option string;
  col_nullable : bool;
  col_default : option string
}.

(** [{'columns': [...], 'constraints': [...]}] *)
Record table_info : Type := {
  columns : list column_info;
  constraints : list string
}.

(** The global [schema_cache]: a dictionary from table names, in the
    order the names were inserted. *)
Definition cache : Type := list (string * table_info).

(** The globals of the module: whether [db_pool] is set, the pool, and
    [schema_cache]. *)
Record server_state : Type := {
  db_pool : bool;
  pool : pool_state;
  schema_cache : cache
}.

(** What [initialize_database] and [cache_schema_info] ask of asyncpg:
    [create_pool], and [conn.fetch] of the introspection query, whose
    answer is read as rows of the six columns it selects. *)
Class Catalog : Type := {
  create_pool_outcome : res unit;
  introspection_outcome : pool_state -> res (list schema_row)
}.

(** The text of [query] in [cache_schema_info]. *)
Definition introspection_query : string :=
  Text.join Text.nl
    [""%string;
     "            SELECT";
     "                t.table_name,";
     "                c.column_name,";
     "                c.data_type,";
     "                c.is_nullable,";
     "                c.column_default,";
     "                tc.constraint_type";
     "            FROM information_schema.tables t";
     "            LEFT JOIN information_schema.columns c ON t.table_name = c.table_name";
     "            LEFT JOIN information_schema.table_constraints tc ON t.table_name = tc.table_name";
     "            WHERE t.table_schema = 'public'";
     "            ORDER BY t.table_name, c.ordinal_position;";
     "            "].

(** [t in schema_cache] *)
Fixpoint has_table (t : string) (c : cache) : bool :=
  match c with
  | [] => false
  | (t', _) :: c' => (t' =? t) || has_table t c'
  end.

(** [schema_cache[t]], when [t] is a key. *)
Fixpoint table (t : string) (c : cache) : option table_info :=
  match c with
  | [] => None
  | (t', info) :: c' => if t' =? t then Some info else table t c'
  end.

(** A change made in place to [schema_cache[t]]. *)
Fixpoint update_table (t : string) (f : table_info -> table_info) (c : cache) : cache :=
  match c with
  | [] => []
  | (t', info) :: c' =>
      if t' =? t then (t', f info) :: c' else (t', info) :: update_table t f c'
  end.

Definition append_column (col : column_info) (info : table_info) : table_info :=
  {| columns := columns info ++ [col]; constraints := constraints info |}.

Definition append_constraint (label : string) (info : table_info) : table_info :=
  {| columns := columns info; constraints := constraints info ++ [label] |}.

(** The column that a row describes, when [row['column_name']] is a text
    that is not empty. *)
Definition column_of_row (row : schema_row) : option column_info :=
  match column_name row with
  | Some c =>
      if c =? "" then None
      else Some {| col_name := c;
                   col_type := data_type row;
                   col_nullable :=
                     match is_nullable row with
                     | Some yes => yes =? "YES"
                     | None => false
                     end;
                   col_default := column_default row |}
  | None => None
  end.

(** The constraint label of a row, when [row['constraint_type']] is a text
    that is not empty. *)
Definition constraint_of_row (row : schema_row) : option string :=
  match constraint_type row with
  | Some label => if label =? "" then None else Some label
  | None => None
  end.

(** The body of the loop [for row in rows] of [cache_schema_info]. *)
Definition cache_row (c : cache) (row : schema_row) : cache :=
  let t := table_name row in
  let c1 :=
    if has_table t c then c
    else (c ++ [(t, {| columns := []; constraints := [] |})])%list in
  let c2 :=
    match column_of_row row with
    | Some col => update_table t (append_column col) c1
    | None => c1
    end in
  match constraint_of_row row with
  | Some label => update_table t (append_constraint label) c2
  | None => c2
  end.

(** The rows that name the table [t], the columns that rows describe and
    the constraint labels that rows carry, in the order of the rows. *)
Definition rows_of_table (t : string) (rows : list schema_row) : list schema_row :=
  filter (fun row => table_name row =? t) rows.

Definition columns_of_rows (rows : list schema_row) : list column_info :=
  flat_map (fun row =>
              match column_of_row row with
              | Some col => [col]
              | None => []
              end) rows.

Definition constraints_of_rows (rows : list schema_row) : list string :=
  flat_map (fun row =>
              match constraint_of_row row with
              | Some label => [label]
              | None => []
              end) rows.

(** The entry of a table, or the entry that the loop creates for it. *)
Definition info_or_empty (o : option table_info) : table_info :=
  match o with
  | Some info => info
  | None => {| columns := []; constraints := [] |}
  end.

(** The row that the join gives for a column row and a constraint. *)
Definition with_constraint (label : string) (row : schema_row) : schema_row :=
  {| table_name := table_name row;
     column_name := column_name row;
     data_type := data_type row;
     is_nullable := is_nullable row;
     column_default := column_default row;
     constraint_type := Some label |}.

Section Schema.

Context {runtime : PyRuntime} {driver : Asyncpg} {catalog : Catalog}.

(** A computation on the pool, run on the globals. *)
Definition on_pool {A : Type} (m : M pool_state A) : M server_state A :=
  fun s =>
    let (r, p) := m (pool s) in
    (r, {| db_pool := db_pool s; pool := p; schema_cache := schema_cache s |}).

(** [db_pool.acquire()] on the global: [None] has no such method. *)
Definition db_pool_acquire : M server_state unit :=
  fun s =>
    if db_pool s then on_pool pool_acquire s
    else (Raise (AttributeError "'NoneType' object has no attribute 'acquire'"), s).

(** Leaving an [async with] block on the global pool. *)
Definition db_pool_release (s : server_state) : server_state :=
  {| db_pool := db_pool s;
     pool := pool_release (pool s);
     schema_cache := schema_cache s |}.

(** [conn.fetch(query)] *)
Definition fetch_schema_rows : M server_state (list schema_row) :=
  on_pool (fun st =>
             (introspection_outcome st, called (Fetch introspection_query) 0 0 st)).

(** The loop [for row in rows] on the global [schema_cache]. *)
Definition cache_rows (rows : list schema_row) : M server_state unit :=
  fun s =>
    (Ok tt,
     {| db_pool := db_pool s;
        pool := pool s;
        schema_cache := fold_left cache_row rows (schema_cache s) |}).

Definition cache_schema_info : M server_state unit :=
  try_except
    (db_pool_acquire ;;;
     (fun s =>
        let (r, s') := (rows <- fetch_schema_rows ;; cache_rows rows) s in
        (r, db_pool_release s')))
    (fun e => ret tt).

(** [db_pool = await asyncpg.create_pool(...)] *)
Definition asyncpg_create_pool : M server_state unit :=
  fun s =>
    match create_pool_outcome with
    | Ok _ =>
        (Ok tt, {| db_pool := true; pool := pool s; schema_cache := schema_cache s |})
    | Raise e => (Raise e, s)
    end.

Definition initialize_database : M server_state unit :=
  try_except
    (asyncpg_create_pool ;;; cache_schema_info)
    (fun e => raise e).

(** A text or [None], as [json.dumps] gets it. *)
Definition opt_json (o : option string) : json :=
  match o with
  | Some s => JStr s
  | None => JNull
  end.

Definition column_json (col : column_info) : json :=
  JObj [("name", JStr (col_name col));
        ("type", opt_json (col_type col));
        ("nullable", JBool (col_nullable col));
        ("default", opt_json (col_default col))].

Definition table_json (info : table_info) : json :=
  JObj [("columns", JArr (map column_json (columns info)));
        ("constraints", JArr (map JStr (constraints info)))].

(** [schema_cache], as [json.dumps] gets it. *)
Definition cache_json (c : cache) : json :=
  JObj (map (fun entry => (fst entry, table_json (snd entry))) c).

(** The tool [get_schema], on the cache [c]; no argument, [None] and the
    empty text all fail the test [if table_name]. *)
Definition get_schema (c : cache) (table_name : option string) : string :=
  let whole :=
    ("Database Schema Information:" ++ Text.nl ++ json_dumps (cache_json c))%string in
  match table_name with
  | Some t =>
      if t =? "" then whole
      else
        let schema_info :=
          match table t c with
          | Some info => [(t, table_json info)]
          | None => []
          end in
        ("Schema for table '" ++ t ++ "':" ++ Text.nl ++
         json_dumps (JObj schema_info))%string
  | None => whole
  end.

(** A text or [None], as an f-string formats it. *)
Definition str_of_option (o : option string) : string :=
  match o with
  | Some s => s
  | None => "None"
  end.

(** The line that [get_schema_context] writes for a column. *)
Definition column_line (col : column_info) : string :=
  ("  - " ++ col_name col ++ " (" ++ str_of_option (col_type col) ++ ") " ++
   (if col_nullable col then "NULL" else "NOT NULL") ++
   match col_default col with
   | Some d => if d =? "" then "" else " DEFAULT " ++ d
   | None => ""
   end ++ Text.nl)%string.

Definition get_schema_context (c : cache) : string :=
  fold_left
    (fun context entry =>
       fold_left
         (fun context col => (context ++ column_line col)%string)
         (columns (snd entry))
         (context ++ Text.nl ++ "Table: " ++ fst entry ++ Text.nl ++
          "Columns:" ++ Text.nl)%string)
    c
    ("Database Schema:" ++ Text.nl)%string.

(** The tool [natural_language_query], on the cache [c]. *)
Definition natural_language_query (c : cache) (question : string)
    (return_sql : bool) : string :=
  if Text.strip question =? "" then "Error: No question provided"
  else
    let schema_context := get_schema_context c in
    let response :=
      ("Natural Language Query Analysis:" ++ Text.nl ++ Text.nl ++
       "Question: " ++ question ++ Text.nl ++ Text.nl ++
       "Schema Context Available: " ++ Text.of_nat (List.length c) ++
       " tables" ++ Text.nl ++ Text.nl ++
       "To generate the appropriate SQL query, I need you to analyze the question against the database schema and provide the SQL query. " ++
       "The schema information is available via the get_schema tool if needed." ++
       Text.nl ++ Text.nl ++
       "Database Schema Summary:" ++ Text.nl)%string in
    let response :=
      fold_left
        (fun response entry => (response ++ "- " ++ fst entry ++ Text.nl)%string)
        c response in
    (response ++ Text.nl ++ Text.nl ++ "Schema Details:" ++ Text.nl ++
     schema_context)%string.

End Schema.

End McpServer2.

(* ------------------------------------------------------------------ *)
(** ** A runtime to run the servers on concrete lines *)
(* ------------------------------------------------------------------ *)

(** An executable instance of [PyRuntime] over ASCII texts, after
    CPython 3.11.  The decoder reads a text from left to right as
    [json.loads] does and stops at the first failure: [JSONDecodeError]
    where the text is no JSON text, [ValueError] where an integer literal
    has more than 4300 digits, the most that [int] converts.  Its domain
    is the texts whose numbers are integers, whose strings have no [\u]
    escape and whose brackets are nested less deep than the recursion
    limit; on the other texts that Python decodes (numbers with a
    fraction or an exponent, [NaN], [Infinity]) it answers
    [JSONDecodeError], and the examples of this file use none of them.
    The message of a [JSONDecodeError], which the servers only log, is
    not computed. *)
Module Reference.

#[local] Open Scope string_scope.

Definition quote : ascii := ascii_of_nat 34.

Definition backslash : ascii := ascii_of_nat 92.

Definition is_code (c : ascii) (n : nat) : bool := (Text.code c =? n)%nat.

(** The blanks of JSON: space, tab, line feed, carriage return. *)
Definition is_blank (c : ascii) : bool := is_code c 32 || is_code c 9 || is_code c 10 || is_code c 13.

Fixpoint skip_blanks (s : string) : string :=
  match s with
  | EmptyString => EmptyString
  | String c s' => if is_blank c then skip_blanks s' else s
  end.

(** What is left of [s] after the word [word], when [s] starts with it. *)
Fixpoint after (word s : string) : option string :=
  match word with
  | EmptyString => Some s
  | String a word' =>
      match s with
      | EmptyString => None
      | String b s' => if Ascii.eqb a b then after word' s' else None
      end
  end.

(** The longest prefix of digits, and the rest. *)
Fixpoint read_digits (s : string) : string * string :=
  match s with
  | EmptyString => (EmptyString, EmptyString)
  | String c s' =>
      if Text.isdigit_char c
      then let (ds, rest) := read_digits s' in (String c ds, rest)
      else (EmptyString, s)
  end.

Definition starts_fraction_or_exponent (s : string) : bool :=
  match s with
  | EmptyString => false
  | String c _ => is_code c 46 || is_code c 101 || is_code c 69
  end.

Definition not_json : exn := JSONDecodeError "not a JSON text".

(** The most digits that [int] converts, [sys.get_int_max_str_digits()]. *)
Definition max_str_digits : nat := 4300.

(** What [int] raises on a literal of [n] digits, when [n] is over the
    limit. *)
Definition too_many_digits (n : nat) : exn :=
  ValueError
    ("Exceeds the limit (4300 digits) for integer string conversion: value has " ++
     Text.of_nat n ++
     " digits; use sys.set_int_max_str_digits() to increase the limit").

Definition res_map {A B : Type} (f : A -> B) (r : res A) : res B :=
  match r with
  | Ok a => Ok (f a)
  | Raise e => Raise e
  end.

Definition or_not_json {A : Type} (o : option A) : res A :=
  match o with
  | Some a => Ok a
  | None => Raise not_json
  end.

Definition read_unsigned (s : string) : res (Z * string) :=
  let (ds, rest) := read_digits s in
  match ds with
  | EmptyString => Raise not_json
  | String c ds' =>
      if is_code c 48 && negb (ds' =? "") then Raise not_json
      else if starts_fraction_or_exponent rest then Raise not_json
      else if (max_str_digits <? String.length ds)%nat
           then Raise (too_many_digits (String.length ds))
      else Ok (Text.int ds, rest)
  end.

Definition read_number (s : string) : res (json * string) :=
  match s with
  | String c s' =>
      if is_code c 45
      then res_map (fun zr => (JInt (- fst zr), snd zr)) (read_unsigned s')
      else res_map (fun zr => (JInt (fst zr), snd zr)) (read_unsigned s)
  | EmptyString => Raise not_json
  end.

(** The character that a backslash and [c] stand for. *)
Definition unescape (c : ascii) : option ascii :=
  if is_code c 34 then Some quote
  else if is_code c 92 then Some backslash
  else if is_code c 47 then Some "/"%char
  else if is_code c 98 then Some (ascii_of_nat 8)
  else if is_code c 102 then Some (ascii_of_nat 12)
  else if is_code c 110 then Some (ascii_of_nat 10)
  else if is_code c 114 then Some (ascii_of_nat 13)
  else if is_code c 116 then Some (ascii_of_nat 9)
  else None.

Definition cons_char (c : ascii) (r : option (string * string)) : option (string * string) :=
  option_map (fun tr => (String c (fst tr), snd tr)) r.

(** The string that ends at the first quote of [s] that is not escaped,
    and what follows that quote. *)
Fixpoint read_string (s : string) : option (string * string) :=
  match s with
  | EmptyString => None
  | String c s' =>
      if is_code c 34 then Some (EmptyString, s')
      else if is_code c 92 then
        match s' with
        | EmptyString => None
        | String e s'' =>
            match unescape e with
            | Some c' => cons_char c' (read_string s'')
            | None => None
            end
        end
      else if (Text.code c <? 32)%nat then None
      else cons_char c (read_string s')
  end.

Definition read_word (word : string) (v : json) (s : string) : res (json * string) :=
  or_not_json (option_map (fun rest => (v, rest)) (after word s)).

(** One value at the head of [s]; [read_items] reads what follows an
    opening bracket or a comma of an array, [read_members] what follows
    an opening brace or a comma of an object. *)
Fixpoint read_value (fuel : nat) (s : string) : res (json * string) :=
  match fuel with
  | O => Raise not_json
  | S fuel' =>
      match skip_blanks s with
      | EmptyString => Raise not_json
      | String c rest as s1 =>
          if is_code c 34 then
            or_not_json (option_map (fun tr => (JStr (fst tr), snd tr)) (read_string rest))
          else if is_code c 91 then
            match skip_blanks rest with
            | String c' rest' =>
                if is_code c' 93 then Ok (JArr [], rest')
                else res_map (fun lr => (JArr (fst lr), snd lr)) (read_items fuel' rest)
            | EmptyString => Raise not_json
            end
          else if is_code c 123 then
            match skip_blanks rest with
            | String c' rest' =>
                if is_code c' 125 then Ok (JObj [], rest')
                else res_map (fun mr => (JObj (of_pairs (fst mr)), snd mr))
                       (read_members fuel' rest)
            | EmptyString => Raise not_json
            end
          else if is_code c 110 then read_word "null" JNull s1
          else if is_code c 116 then read_word "true" (JBool true) s1
          else if is_code c 102 then read_word "false" (JBool false) s1
          else read_number s1
      end
  end
with read_items (fuel : nat) (s : string) : res (list json * string) :=
  match fuel with
  | O => Raise not_json
  | S fuel' =>
      match read_value fuel' s with
      | Raise e => Raise e
      | Ok (v, r) =>
          match skip_blanks r with
          | EmptyString => Raise not_json
          | String c r' =>
              if is_code c 44 then
                res_map (fun lr => (v :: fst lr, snd lr)) (read_items fuel' r')
              else if is_code c 93 then Ok ([v], r')
              else Raise not_json
          end
      end
  end
with read_members (fuel : nat) (s : string) : res (list (string * json) * string) :=
  match fuel with
  | O => Raise not_json
  | S fuel' =>
      match skip_blanks s with
      | EmptyString => Raise not_json
      | String q r =>
          if is_code q 34 then
            match read_string r with
            | None => Raise not_json
            | Some (k, r1) =>
                match skip_blanks r1 with
                | EmptyString => Raise not_json
                | String colon r2 =>
                    if is_code colon 58 then
                      match read_value fuel' r2 with
                      | Raise e => Raise e
                      | Ok (v, r3) =>
                          match skip_blanks r3 with
                          | EmptyString => Raise not_json
                          | String c r4 =>
                              if is_code c 44 then
                                res_map (fun mr => ((k, v) :: fst mr, snd mr))
                                  (read_members fuel' r4)
                              else if is_code c 125 then Ok ([(k, v)], r4)
                              else Raise not_json
                          end
                      end
                    else Raise not_json
                end
            end
          else Raise not_json
      end
  end.

(** [json.loads(text)] on the texts described above. *)
Definition loads (text : string) : res json :=
  match read_value (2 * String.length text + 2) text with
  | Ok (v, rest) => if skip_blanks rest =? "" then Ok v else Raise not_json
  | Raise e => Raise e
  end.

Definition hex_digit (n : nat) : ascii :=
  if (n <? 10)%nat then ascii_of_nat (48 + n) else ascii_of_nat (87 + n).

(** The two hexadecimal digits of the code of [c]. *)
Definition hex2 (c : ascii) : string :=
  String (hex_digit (Text.code c / 16)) (String (hex_digit (Text.code c mod 16)) "").

Definition text_of_char (c : ascii) : string := String c "".

(** A character inside the quotes of a JSON string. *)
Definition json_char (c : ascii) : string :=
  if is_code c 34 then String backslash (text_of_char quote)
  else if is_code c 92 then String backslash (text_of_char backslash)
  else if is_code c 10 then String backslash "n"
  else if is_code c 13 then String backslash "r"
  else if is_code c 9 then String backslash "t"
  else if is_code c 8 then String backslash "b"
  else if is_code c 12 then String backslash "f"
  else if (Text.code c <? 32)%nat || (127 <? Text.code c)%nat
       then String backslash ("u00" ++ hex2 c)
  else text_of_char c.

Fixpoint json_chars (s : string) : string :=
  match s with
  | EmptyString => EmptyString
  | String c s' => json_char c ++ json_chars s'
  end.

Definition json_string (s : string) : string :=
  text_of_char quote ++ json_chars s ++ text_of_char quote.

Definition json_float (repr : string) : string :=
  if repr =? "inf" then "Infinity"
  else if repr =? "-inf" then "-Infinity"
  else if repr =? "nan" then "NaN"
  else repr.

Fixpoint indent (level : nat) : string :=
  match level with
  | O => EmptyString
  | S level' => "  " ++ indent level'
  end.

(** [json.dumps(v, indent=2)] at nesting depth [level]. *)
Fixpoint dumps_at (level : nat) (v : json) : string :=
  match v with
  | JNull => "null"
  | JBool true => "true"
  | JBool false => "false"
  | JInt z => Text.of_Z z
  | JFloat repr => json_float repr
  | JStr s => json_string s
  | JArr [] => "[]"
  | JArr items =>
      "[" ++ Text.nl ++ indent (S level) ++
      (fix items_text (l : list json) : string :=
         match l with
         | [] => EmptyString
         | x :: l' =>
             dumps_at (S level) x ++
             match l' with
             | [] => EmptyString
             | _ => "," ++ Text.nl ++ indent (S level) ++ items_text l'
             end
         end) items ++
      Text.nl ++ indent level ++ "]"
  | JObj [] => "{}"
  | JObj members =>
      "{" ++ Text.nl ++ indent (S level) ++
      (fix members_text (l : list (string * json)) : string :=
         match l with
         | [] => EmptyString
         | (k, x) :: l' =>
             json_string k ++ ": " ++ dumps_at (S level) x ++
             match l' with
             | [] => EmptyString
             | _ => "," ++ Text.nl ++ indent (S level) ++ members_text l'
             end
         end) members ++
      Text.nl ++ indent level ++ "}"
  end.

Definition dumps (v : json) : string := dumps_at 0 v.

Fixpoint contains (c : nat) (s : string) : bool :=
  match s with
  | EmptyString => false
  | String c' s' => is_code c' c || contains c s'
  end.

(** A character inside the quotes of [repr(s)], [delimiter] being the
    quote chosen. *)
Definition repr_char (delimiter : nat) (c : ascii) : string :=
  if is_code c 92 then String backslash (text_of_char backslash)
  else if is_code c delimiter then String backslash (text_of_char c)
  else if is_code c 10 then String backslash "n"
  else if is_code c 13 then String backslash "r"
  else if is_code c 9 then String backslash "t"
  else if (Text.code c <? 32)%nat || (126 <? Text.code c)%nat
       then String backslash ("x" ++ hex2 c)
  else text_of_char c.

Fixpoint repr_chars (delimiter : nat) (s : string) : string :=
  match s with
  | EmptyString => EmptyString
  | String c s' => repr_char delimiter c ++ repr_chars delimiter s'
  end.

(** [repr(s)] for a [str]: single quotes, unless the text has one and
    has no double quote. *)
Definition repr_string (s : string) : string :=
  let delimiter := if contains 39 s && negb (contains 34 s) then 34 else 39 in
  text_of_char (ascii_of_nat delimiter) ++ repr_chars delimiter s ++
  text_of_char (ascii_of_nat delimiter).

(** [repr(v)] *)
Fixpoint repr (v : json) : string :=
  match v with
  | JNull => "None"
  | JBool true => "True"
  | JBool false => "False"
  | JInt z => Text.of_Z z
  | JFloat r => r
  | JStr s => repr_string s
  | JArr items =>
      "[" ++
      (fix items_text (l : list json) : string :=
         match l with
         | [] => EmptyString
         | x :: l' =>
             repr x ++ match l' with [] => EmptyString | _ => ", " ++ items_text l' end
         end) items ++
      "]"
  | JObj members =>
      "{" ++
      (fix members_text (l : list (string * json)) : string :=
         match l with
         | [] => EmptyString
         | (k, x) :: l' =>
             repr_string k ++ ": " ++ repr x ++
             match l' with [] => EmptyString | _ => ", " ++ members_text l' end
         end) members ++
      "}"
  end.

(** [str(v)]: the text itself for a [str], [repr(v)] otherwise. *)
Definition str (v : json) : string :=
  match v with
  | JStr s => s
  | _ => repr v
  end.

Definition runtime : PyRuntime :=
  {| json_loads := loads; json_dumps := dumps; py_str := str |}.

End Reference.

(** [quoted s] is [s] with a double quote for each apostrophe: JSON lines
    are written with apostrophes below. *)
Fixpoint quoted (s : string) : string :=
  match s with
  | EmptyString => EmptyString
  | String c s' =>
      String (if Reference.is_code c 39 then Reference.quote else c) (quoted s')
  end.

(* ------------------------------------------------------------------ *)
(** ** Reading a frame *)
(* ------------------------------------------------------------------ *)

(** The [id] member of a frame. *)
Definition frame_id (frame : json) : option json :=
  match frame with
  | JObj d => lookup "id" d
  | _ => None
  end.

(** Whether the frame has the member [key]. *)
Definition frame_has (key : string) (frame : json) : bool :=
  match frame with
  | JObj d => has_key key d
  | _ => false
  end.

(** The [code] of the [error] member of a frame. *)
Definition frame_error_code (frame : json) : option json :=
  match frame with
  | JObj d =>
      match lookup "error" d with
      | Some (JObj e) => lookup "code" e
      | _ => None
      end
  | _ => None
  end.

(** The method table of [main]. *)
Definition known_method (method : json) : bool :=
  eq_str method "initialize" || eq_str method "tools/list" ||
  eq_str method "tools/call" || eq_str method "resources/list" ||
  eq_str method "prompts/list".

(* ------------------------------------------------------------------ *)
(** ** Databases for the examples *)
(* ------------------------------------------------------------------ *)

Module Sample.

(** No connection open, no call made. *)
Definition fresh : QueryTool.db_state :=
  {| QueryTool.open_connections := 0; QueryTool.calls := [] |}.

(** A server that runs every statement and has one row to fetch. *)
Definition healthy : QueryTool.Psycopg2 :=
  {| QueryTool.connect_outcome := fun _ => Ok tt;
     QueryTool.execute_outcome := fun _ _ => Ok tt;
     QueryTool.fetchall_outcome := fun _ => Ok (["x"], [[JInt 1]]);
     QueryTool.commit_outcome := fun _ => Ok tt |}.

(** A server that accepts the connection and refuses every statement. *)
Definition rejecting : QueryTool.Psycopg2 :=
  {| QueryTool.connect_outcome := fun _ => Ok tt;
     QueryTool.execute_outcome := fun _ _ => Raise (DriverError "syntax error at or near SELEC");
     QueryTool.fetchall_outcome := fun _ => Raise (DriverError "no results to fetch");
     QueryTool.commit_outcome := fun _ => Ok tt |}.

(** A server that cannot be reached. *)
Definition unreachable : QueryTool.Psycopg2 :=
  {| QueryTool.connect_outcome := fun _ => Raise (DriverError "connection refused");
     QueryTool.execute_outcome := fun _ _ => Ok tt;
     QueryTool.fetchall_outcome := fun _ => Ok ([], []);
     QueryTool.commit_outcome := fun _ => Ok tt |}.

(** No connection held, no call made. *)
Definition idle : McpServer2.pool_state :=
  {| McpServer2.held := 0; McpServer2.calls := [] |}.

(** A pool whose connections run every statement: one row to fetch, and
    three rows changed by a modification. *)
Definition healthy_pool : McpServer2.Asyncpg :=
  {| McpServer2.acquire_outcome := fun _ => Ok tt;
     McpServer2.fetch_outcome := fun _ _ => Ok [[("x", McpServer2.Plain (JInt 1))]];
     McpServer2.execute_outcome := fun _ _ => Ok "UPDATE 3" |}.

(** A pool whose connections refuse every statement. *)
Definition rejecting_pool : McpServer2.Asyncpg :=
  {| McpServer2.acquire_outcome := fun _ => Ok tt;
     McpServer2.fetch_outcome :=
       fun _ _ => Raise (DriverError "syntax error at or near SELEC");
     McpServer2.execute_outcome :=
       fun _ _ => Raise (DriverError "syntax error at or near UPDTE") |}.

(** A request with an id, for a method of the table. *)
Definition tools_list_request : string :=
  quoted "{'jsonrpc': '2.0', 'id': 1, 'method': 'tools/list'}".

(** A request with an id, for a method that is not in the table. *)
Definition ping_request : string :=
  quoted "{'jsonrpc': '2.0', 'id': 7, 'method': 'ping'}".

(** The notification that a client sends once it is initialized. *)
Definition initialized_notification : string :=
  quoted "{'jsonrpc': '2.0', 'method': 'notifications/initialized'}".

(** A notification for a method of the table. *)
Definition initialize_notification : string :=
  quoted "{'jsonrpc': '2.0', 'method': 'initialize'}".

(** A line cut short, and a line of blanks. *)
Definition cut_line : string := quoted "{'jsonrpc': '2.0', 'id'" ++ Text.nl.

Definition blank_line : string := "  " ++ Text.nl.

(** A call of the tool [query_database] with an empty statement. *)
Definition empty_sql_call : dict :=
  [("jsonrpc", JStr "2.0");
   ("id", JInt 4);
   ("method", JStr "tools/call");
   ("params",
     JObj [("name", JStr "query_database");
           ("arguments", JObj [("sql", JStr "")])])].

(** A query that starts with a common table expression, and a statement
    that PostgreSQL refuses. *)
Definition with_query : string := "WITH t AS (SELECT 1 AS x) SELECT x FROM t".

Definition misspelt_query : string := "SELEC 1".

(** A line that holds an array. *)
Definition array_line : string := "[1, 2]".

(** A number of [n] digits. *)
Fixpoint digits (n : nat) : string :=
  match n with
  | O => EmptyString
  | S n' => String "1" (digits n')
  end.

(** A number of 4301 digits, one more than [int] converts. *)
Definition long_number : string := digits 4301.

(** A request with an id, for a method of the table, whose [params] hold
    that number. *)
Definition long_number_request : string :=
  (quoted "{'jsonrpc': '2.0', 'id': 2, 'method': 'tools/list', 'params': {'limit': "
   ++ long_number ++ "}}")%string.

(** A request with an id, for a method that is not in the table, whose
    [params] hold that number. *)
Definition long_ping_request : string :=
  (quoted "{'jsonrpc': '2.0', 'id': 8, 'method': 'ping', 'params': {'limit': "
   ++ long_number ++ "}}")%string.

(** A line cut short after that number: no JSON text. *)
Definition long_cut_line : string :=
  (quoted "{'jsonrpc': '2.0', 'id': 9, 'params': {'limit': " ++ long_number)%string.

(** A server with two rows of two columns to fetch, and a server whose
    result set has two columns of the same name. *)
Definition fares : QueryTool.Psycopg2 :=
  {| QueryTool.connect_outcome := fun _ => Ok tt;
     QueryTool.execute_outcome := fun _ _ => Ok tt;
     QueryTool.fetchall_outcome :=
       fun _ => Ok (["id"; "fare"], [[JInt 1; JInt 12]; [JInt 2; JInt 30]]);
     QueryTool.commit_outcome := fun _ => Ok tt |}.

Definition joined : QueryTool.Psycopg2 :=
  {| QueryTool.connect_outcome := fun _ => Ok tt;
     QueryTool.execute_outcome := fun _ _ => Ok tt;
     QueryTool.fetchall_outcome := fun _ => Ok (["id"; "id"], [[JInt 1; JInt 2]]);
     QueryTool.commit_outcome := fun _ => Ok tt |}.

(** A call of the tool [query_database] with the arguments [arguments],
    with the id [id] when there is one. *)
Definition tool_call (id : option json) (arguments : dict) : dict :=
  ([("jsonrpc", JStr "2.0")] ++
   match id with
   | Some i => [("id", i)]
   | None => []
   end ++
   [("method", JStr "tools/call");
    ("params",
      JObj [("name", JStr "query_database"); ("arguments", JObj arguments)])])%list.

(** The row of the join for the column [column] of the table [trips],
    before the constraints are joined. *)
Definition trips_column (column type : string) : McpServer2.schema_row :=
  {| McpServer2.table_name := "trips";
     McpServer2.column_name := Some column;
     McpServer2.data_type := Some type;
     McpServer2.is_nullable := Some "NO";
     McpServer2.column_default := None;
     McpServer2.constraint_type := None |}.

(** A catalog with the one table [trips], of two columns and two
    constraints. *)
Definition catalog : McpServer2.Catalog :=
  {| McpServer2.create_pool_outcome := Ok tt;
     McpServer2.introspection_outcome :=
       fun _ =>
         Ok (flat_map
               (fun row =>
                  map (fun label => McpServer2.with_constraint label row)
                    ["PRIMARY KEY"; "CHECK"])
               [trips_column "id" "integer"; trips_column "fare" "numeric"]) |}.

(** The globals before [initialize_database]. *)
Definition unset : McpServer2.server_state :=
  {| McpServer2.db_pool := false;
     McpServer2.pool := idle;
     McpServer2.schema_cache := [] |}.

End Sample.

(** A frame answers the request [id] when it carries that id and has
    exactly one of the members [result] and [error]. *)
Definition answers (id : json) (frame : json) : Prop :=
  frame_id frame = Some id /\
  frame_has "result" frame = negb (frame_has "error" frame).

(** What a handler returns, when it returns, answers the request [id]. *)
Definition returns_answer (id : json) (r : res json) : Prop :=
  match r with
  | Ok frame => answers id frame
  | Raise _ => True
  end.

(** The items of a list. *)
Definition items (v : json) : list json :=
  match v with
  | JArr l => l
  | _ => []
  end.

(** A value of a fetched row as [execute_query] returns it: the text of
    [isoformat()] for a [datetime], the value itself otherwise. *)
Definition returned_value (v : McpServer2.db_value) : json :=
  match v with
  | McpServer2.Datetime isoformat => JStr isoformat
  | McpServer2.Plain v => v
  end.

(** The request [tools/list] with the id 1, decoded. *)
Definition tools_list_decoded : json :=
  JObj [("jsonrpc", JStr "2.0"); ("id", JInt 1); ("method", JStr "tools/list")].

(** The request [ping] with the id 7, decoded. *)
Definition ping_decoded : json :=
  JObj [("jsonrpc", JStr "2.0"); ("id", JInt 7); ("method", JStr "ping")].

(** The message of the [ValueError] that [int] raises on 4301 digits. *)
Definition long_number_message : string :=
  "Exceeds the limit (4300 digits) for integer string conversion: value has 4301 digits; use sys.set_int_max_str_digits() to increase the limit".

(** The calls made between the state [before] and the state [after]. *)
Definition calls_made (before after : QueryTool.db_state) : list QueryTool.db_call :=
  skipn (List.length (QueryTool.calls before)) (QueryTool.calls after).

(** The error codes that [query_tool.py] writes. *)
Definition error_codes : list Z := [-32700; -32601; -32602; -32603; -32001]%Z.

(** A response of the protocol: a result frame, or an error frame with
    one of the codes above. *)
Definition is_response (frame : json) : Prop :=
  exists id,
    (exists result, frame = QueryTool.result_frame id result) \/
    (exists code message,
        frame = QueryTool.error_frame id code message /\ In code error_codes).

(** The names of the tools that a [tools/list] frame lists. *)
Definition advertised_tools (frame : json) : list json :=
  match frame with
  | JObj d =>
      match get "result" d with
      | JObj result =>
          match get "tools" result with
          | JArr tools =>
              map (fun tool =>
                     match tool with
                     | JObj t => get "name" t
                     | _ => JNull
                     end) tools
          | _ => []
          end
      | _ => []
      end
  | _ => []
  end.

(* ================================================================== *)
(** * Part II: the properties *)
(* ================================================================== *)

(** Case analysis on the next test of a computation that hypothesis [H]
    equates with its outcome. *)
Ltac run_in H :=
  repeat
    (match type of H with
     | context [match ?x with _ => _ end] =>
         let E := fresh "E" in destruct x eqn:E
     | context [if ?b then _ else _] =>
         let E := fresh "E" in destruct b eqn:E
     end; cbn beta iota in H).

Ltac outcome H := inversion H; subst; clear H.

(** ** The frames of [query_tool.py] *)

Section QueryToolFrames.

Import QueryTool.

Context {runtime : PyRuntime} {driver : Psycopg2}.

Lemma error_frame_answers (id : json) (code : Z) (message : string) :
  answers id (error_frame id code message).
Proof. split; reflexivity. Qed.

Lemma result_frame_answers (id result : json) :
  answers id (result_frame id result).
Proof. split; reflexivity. Qed.

Lemma subscript_id (req : dict) (id : json) :
  lookup "id" req = Some id -> subscript req "id" = Ok id.
Proof. intros H; unfold subscript; now rewrite H. Qed.

Lemma handle_initialize_answers (req : dict) (id : json) (st : db_state) :
  lookup "id" req = Some id ->
  handle_initialize req st = (Ok (result_frame id
    (JObj [("protocolVersion", JStr "2024-11-05");
           ("capabilities", JObj [("tools", JObj [])]);
           ("serverInfo",
             JObj [("name", JStr "postgres-query-server");
                   ("version", JStr "1.0.0")])])), st).
Proof.
  intros H. unfold handle_initialize, bind, lift, ret.
  now rewrite (subscript_id _ _ H).
Qed.

Lemma handle_tools_list_answers (req : dict) (id : json) (st : db_state) :
  lookup "id" req = Some id ->
  handle_tools_list req st =
    (Ok (result_frame id (JObj [("tools", JArr [query_database_tool])])), st).
Proof.
  intros H. unfold handle_tools_list, bind, lift, ret.
  now rewrite (subscript_id _ _ H).
Qed.

Lemma handle_tools_call_answers (req : dict) (id : json) (st st' : db_state)
    (r : res json) :
  lookup "id" req = Some id ->
  handle_tools_call req st = (r, st') ->
  returns_answer id r.
Proof.
  intros Hid H. unfold handle_tools_call, bind, lift, ret in H.
  rewrite (subscript_id _ _ Hid) in H.
  run_in H; outcome H; cbn;
    auto using error_frame_answers, result_frame_answers.
Qed.

Lemma dispatch_answers (req : dict) (id : json) (st st' : db_state)
    (r : res (list json)) :
  lookup "id" req = Some id ->
  id <> JNull ->
  dispatch (JObj req) st = (r, st') ->
  match r with
  | Ok frames => exists frame, frames = [frame] /\ answers id frame
  | Raise _ => True
  end.
Proof.
  intros Hid Hnull H. unfold dispatch, bind, lift, ret, as_dict in H.
  destruct (eq_str (get "method" req) "initialize").
  { rewrite (handle_initialize_answers _ _ _ Hid) in H. outcome H.
    eexists; split; [reflexivity | apply result_frame_answers]. }
  destruct (eq_str (get "method" req) "tools/list").
  { rewrite (handle_tools_list_answers _ _ _ Hid) in H. outcome H.
    eexists; split; [reflexivity | apply result_frame_answers]. }
  destruct (eq_str (get "method" req) "tools/call").
  { destruct (handle_tools_call req st) as [r0 st0] eqn:E.
    pose proof (handle_tools_call_answers _ _ _ _ _ Hid E) as Ha.
    destruct r0; outcome H; [|exact I].
    eexists; split; [reflexivity | exact Ha]. }
  rewrite (subscript_id _ _ Hid) in H.
  destruct (eq_str (get "method" req) "resources/list").
  { outcome H. eexists; split; [reflexivity | apply result_frame_answers]. }
  destruct (eq_str (get "method" req) "prompts/list").
  { outcome H. eexists; split; [reflexivity | apply result_frame_answers]. }
  unfold send_error_response in H. rewrite Hid in H.
  destruct id; try contradiction; outcome H;
    (eexists; split; [reflexivity | apply error_frame_answers]).
Qed.

(** What the handlers raise is a [KeyError] or an [AttributeError]: no
    [JSONDecodeError] leaves [dispatch]. *)
Lemma subscript_raises (d : dict) (k : string) (e : exn) :
  subscript d k = Raise e -> is_json_decode_error e = false.
Proof. unfold subscript. destruct (lookup k d); intros H; outcome H; reflexivity. Qed.

Lemma as_dict_raises (v : json) (e : exn) :
  as_dict v = Raise e -> is_json_decode_error e = false.
Proof. destruct v; intros H; outcome H; reflexivity. Qed.

Lemma query_db_never_raises (sql : json) (st st' : db_state) (e : exn) :
  query_db sql st <> (Raise e, st').
Proof.
  unfold query_db, try_except, ret.
  match goal with
  | |- context [match ?m st with _ => _ end] => destruct (m st) as [[d | e0] st1]
  end; discriminate.
Qed.

Lemma handle_tools_call_raises (req : dict) (st st' : db_state) (e : exn) :
  handle_tools_call req st = (Raise e, st') -> is_json_decode_error e = false.
Proof.
  intros H. unfold handle_tools_call, bind, lift, ret in H.
  run_in H; outcome H;
    eauto using subscript_raises, as_dict_raises;
    exfalso; eapply query_db_never_raises; eauto.
Qed.

Lemma dispatch_raises (req : json) (st st' : db_state) (e : exn) :
  dispatch req st = (Raise e, st') -> is_json_decode_error e = false.
Proof.
  intros H. unfold dispatch, handle_initialize, handle_tools_list, bind, lift,
    ret, subscript in H.
  destruct (as_dict req) as [d | e0] eqn:Ed.
  - destruct (eq_str (get "method" d) "initialize").
    { destruct (lookup "id" d); outcome H; reflexivity. }
    destruct (eq_str (get "method" d) "tools/list").
    { destruct (lookup "id" d); outcome H; reflexivity. }
    destruct (eq_str (get "method" d) "tools/call").
    { destruct (handle_tools_call d st) as [[frame | e1] st1] eqn:E; outcome H.
      eapply handle_tools_call_raises; eauto. }
    destruct (eq_str (get "method" d) "resources/list").
    { destruct (lookup "id" d); outcome H; reflexivity. }
    destruct (eq_str (get "method" d) "prompts/list").
    { destruct (lookup "id" d); outcome H; reflexivity. }
    discriminate H.
  - outcome H. destruct req; cbn in Ed; outcome Ed; reflexivity.
Qed.

(** A turn on a line that [json.loads] decodes: [req] is bound to the
    value decoded, and what the handlers raise is answered with its
    best-effort id. *)
Lemma decoded_turn (line : string) (req : json) (s : loop_state) :
  Text.strip line <> "" ->
  json_loads (Text.strip line) = Ok req ->
  main_iteration line s =
    match dispatch req (database s) with
    | (Ok frames, st) => (Ok frames, decoded req st)
    | (Raise e, st) =>
        (Ok [error_frame (best_effort_id req) (-32603)
               ("Internal error: " ++ str_exn e)], decoded req st)
    end.
Proof.
  intros Hline Hreq. unfold main_iteration.
  apply String.eqb_neq in Hline. rewrite Hline.
  unfold try_except, bind, assign_req, on_database, read_req, ret.
  rewrite Hreq. cbn [database decoded req_local].
  destruct (dispatch req (database s)) as [[frames | e] st] eqn:E;
    [reflexivity |].
  now rewrite (dispatch_raises _ _ _ _ E).
Qed.

(** A turn on a line on which [json.loads] raises: nothing is bound, and
    the second handler reads the [req] of an earlier turn. *)
Lemma undecoded_turn (line : string) (e : exn) (s : loop_state) :
  Text.strip line <> "" ->
  json_loads (Text.strip line) = Raise e ->
  main_iteration line s =
    if is_json_decode_error e then
      (Ok [error_frame JNull (-32700) "Parse error"], s)
    else
      match req_local s with
      | Some previous =>
          (Ok [error_frame (best_effort_id previous) (-32603)
                 ("Internal error: " ++ str_exn e)], s)
      | None => (Raise (UnboundLocalError "req"), s)
      end.
Proof.
  intros Hline He. unfold main_iteration.
  apply String.eqb_neq in Hline. rewrite Hline.
  unfold try_except, bind, assign_req, read_req, ret. rewrite He.
  destruct (is_json_decode_error e); [reflexivity |].
  now destruct (req_local s).
Qed.

(** X26.  A line that [json.loads] decodes to a request with an id that
    is not null makes [main] print exactly one frame, whatever [req] was
    bound to; the frame carries the id as [json.loads] returned it, and
    has exactly one of the members [result] and [error]. *)
Theorem decoded_request_is_answered (line : string) (req : dict) (id : json)
    (s : loop_state) :
  Text.strip line <> "" ->
  json_loads (Text.strip line) = Ok (JObj req) ->
  lookup "id" req = Some id ->
  id <> JNull ->
  exists frame st',
    main_iteration line s = (Ok [frame], decoded (JObj req) st') /\
    answers id frame.
Proof.
  intros Hline Hreq Hid Hnull. rewrite (decoded_turn _ _ _ Hline Hreq).
  destruct (dispatch (JObj req) (database s)) as [r st'] eqn:E.
  pose proof (dispatch_answers _ _ _ _ _ Hid Hnull E) as Ha.
  destruct r as [frames | e].
  - destruct Ha as [frame [-> Ha]]. now exists frame, st'.
  - eexists _, st'. split; [reflexivity |].
    unfold best_effort_id, get, get_or. rewrite Hid.
    apply error_frame_answers.
Qed.

(** C1, on the code.  A request on which [json.loads] raises an
    exception that is no [JSONDecodeError] is answered with the id of
    another request: when the line read before it decoded to a request
    with the id [id], the one frame printed for it is the internal error
    -32603 with that [id]. *)
Theorem request_is_answered_with_previous_id (line line' : string) (req : dict)
    (id : json) (e : exn) (s : loop_state) :
  Text.strip line <> "" ->
  json_loads (Text.strip line) = Ok (JObj req) ->
  lookup "id" req = Some id ->
  Text.strip line' <> "" ->
  json_loads (Text.strip line') = Raise e ->
  is_json_decode_error e = false ->
  exists frames s',
    main_iteration line s = (Ok frames, s') /\
    main_iteration line' s' =
      (Ok [error_frame id (-32603) ("Internal error: " ++ str_exn e)], s').
Proof.
  intros Hline Hreq Hid Hline' He Hkind.
  rewrite (decoded_turn _ _ _ Hline Hreq).
  destruct (dispatch (JObj req) (database s)) as [[frames | e0] st'];
    eexists _, (decoded (JObj req) st'); (split; [reflexivity |]);
    rewrite (undecoded_turn _ _ _ Hline' He), Hkind;
    cbn [req_local decoded best_effort_id]; unfold get, get_or;
    now rewrite Hid.
Qed.

End QueryToolFrames.

(** ** Methods outside the table, and notifications *)

Section QueryToolMethods.

Import QueryTool.

Context {runtime : PyRuntime} {driver : Psycopg2}.



(** C8, on the code.  Whatever method a line names, when [json.loads]
    raises on it an exception that is no [JSONDecodeError] after a line
    was decoded, the frame printed for it is the internal error -32603,
    not -32601, and its id is the best-effort id of the value decoded
    before, not that of the request. *)
Theorem undecoded_request_gets_internal_error (line : string) (previous : json)
    (e : exn) (st : db_state) :
  Text.strip line <> "" ->
  json_loads (Text.strip line) = Raise e ->
  is_json_decode_error e = false ->
  exists frame,
    main_iteration line (decoded previous st) = (Ok [frame], decoded previous st) /\
    frame_error_code frame = Some (JInt (-32603)) /\
    frame_id frame = Some (best_effort_id previous).
Proof.
  intros Hline He Hkind.
  rewrite (undecoded_turn _ _ _ Hline He), Hkind. cbn [req_local decoded].
  eexists. repeat split.
Qed.

(** A notification for one of the methods [initialize], [tools/list],
    [resources/list] and [prompts/list] raises [KeyError] at [req["id"]],
    and the last handler of [main] prints a frame for it. *)
Lemma notification_internal_error (line method : string) (req : dict)
    (s : loop_state) :
  Text.strip line <> "" ->
  json_loads (Text.strip line) = Ok (JObj req) ->
  lookup "id" req = None ->
  get "method" req = JStr method ->
  In method ["initialize"; "tools/list"; "resources/list"; "prompts/list"] ->
  main_iteration line s =
    (Ok [error_frame JNull (-32603) "Internal error: 'id'"],
     decoded (JObj req) (database s)).
Proof.
  intros Hline Hreq Hid Hm Hin. rewrite (decoded_turn _ _ _ Hline Hreq).
  unfold dispatch, handle_initialize, handle_tools_list, bind, lift, ret,
    as_dict, subscript, best_effort_id.
  rewrite Hm, Hid. unfold get, get_or. rewrite Hid.
  cbn in Hin.
  destruct Hin as [<- | [<- | [<- | [<- | []]]]]; reflexivity.
Qed.

(** A call of a tool for a request without id raises in every branch
    of [handle_tools_call]. *)
Lemma handle_tools_call_raises_without_id (req : dict) (st : db_state) :
  lookup "id" req = None ->
  exists e st', handle_tools_call req st = (Raise e, st').
Proof.
  intros Hid. unfold handle_tools_call, bind, lift, ret, subscript.
  rewrite Hid.
  repeat match goal with
         | |- context [match ?x with _ => _ end] => destruct x
         | |- context [if ?b then _ else _] => destruct b
         end; eauto.
Qed.

(** A notification for any method of the table makes [main] print one
    frame, an internal error with a null id. *)
Lemma known_method_notification_answered (line : string) (req : dict)
    (s : loop_state) :
  Text.strip line <> "" ->
  json_loads (Text.strip line) = Ok (JObj req) ->
  lookup "id" req = None ->
  known_method (get "method" req) = true ->
  exists frame s',
    main_iteration line s = (Ok [frame], s') /\
    frame_id frame = Some JNull /\
    frame_error_code frame = Some (JInt (-32603)).
Proof.
  intros Hline Hreq Hid Hm. rewrite (decoded_turn _ _ _ Hline Hreq).
  assert (Hraise : exists e st', dispatch (JObj req) (database s) = (Raise e, st')).
  { unfold dispatch, handle_initialize, handle_tools_list, bind, lift, ret,
      as_dict, subscript.
    rewrite Hid. unfold known_method in Hm.
    destruct (eq_str (get "method" req) "initialize"); [eauto |].
    destruct (eq_str (get "method" req) "tools/list"); [eauto |].
    destruct (eq_str (get "method" req) "tools/call").
    - destruct (handle_tools_call_raises_without_id req (database s) Hid)
        as [e [st' ->]].
      eauto.
    - destruct (eq_str (get "method" req) "resources/list"); [eauto |].
      destruct (eq_str (get "method" req) "prompts/list"); [eauto |].
      discriminate Hm. }
  destruct Hraise as [e [st' ->]].
  eexists _, _. split; [reflexivity |].
  repeat split. unfold best_effort_id, get, get_or, frame_id, error_frame.
  cbn [lookup String.eqb Ascii.eqb Bool.eqb]. now rewrite Hid.
Qed.

(** The loop after one line.  *)
Lemma main_loop_cons (line : string) (rest : list string) (s : loop_state) :
  line <> "" ->
  main_loop (line :: rest) s =
    match main_iteration line s with
    | (Ok frames, s1) =>
        {| printed := frames ++ printed (main_loop rest s1);
           ending := ending (main_loop rest s1);
           final := final (main_loop rest s1) |}
    | (Raise e, s1) => {| printed := []; ending := Raise e; final := s1 |}
    end.
Proof.
  intros H. cbn [main_loop]. apply String.eqb_neq in H. now rewrite H.
Qed.

(** X28.  A line on which [json.loads] raises [JSONDecodeError] makes
    [main] print one frame with the code -32700 and a null id, and a
    line of blanks makes it print nothing; in both cases the loop goes
    on with the lines that follow, in the same state. *)
Theorem parse_error_line (line : string) (rest : list string) (message : string)
    (s : loop_state) :
  line <> "" ->
  Text.strip line = "" \/
  json_loads (Text.strip line) = Raise (JSONDecodeError message) ->
  main_loop (line :: rest) s =
    {| printed :=
         (if Text.strip line =? "" then []
          else [error_frame JNull (-32700) "Parse error"]) ++
         printed (main_loop rest s);
       ending := ending (main_loop rest s);
       final := final (main_loop rest s) |}.
Proof.
  intros Hline Hbad. rewrite (main_loop_cons _ _ _ Hline).
  destruct (Text.strip line =? "") eqn:Eb.
  - unfold main_iteration. rewrite Eb. reflexivity.
  - destruct Hbad as [Hblank | Hbad].
    + rewrite Hblank in Eb. discriminate Eb.
    + apply String.eqb_neq in Eb.
      rewrite (undecoded_turn _ _ _ Eb Hbad). reflexivity.
Qed.

(** C6, on the code.  When the first line of the stream is one on which
    [json.loads] raises an exception that is no [JSONDecodeError], a
    line that is no JSON text included, [main] stops: the handler reads
    [req] before anything was assigned to it, [UnboundLocalError] leaves
    the loop, no frame is printed for the line, and the lines that
    follow are not read. *)
Theorem undecodable_line_ends_main (line : string) (rest : list string) (e : exn)
    (st : db_state) :
  Text.strip line <> "" ->
  json_loads (Text.strip line) = Raise e ->
  is_json_decode_error e = false ->
  main (line :: rest) st =
    {| printed := []; ending := Raise (UnboundLocalError "req"); final := start st |}.
Proof.
  intros Hline He Hkind. unfold main.
  rewrite main_loop_cons by (intros ->; now apply Hline).
  now rewrite (undecoded_turn _ _ _ Hline He), Hkind.
Qed.

(** C10.  In a call of the tool [query_database], an empty [sql] and an
    absent [sql] are treated alike: [handle_tools_call] makes no call to
    the database and returns the error -32602, [Missing required
    parameter: sql], with the id of the request ([req["id"]] raises when
    the request has none). *)
Theorem empty_sql_is_missing_sql (req params arguments : dict) (st : db_state) :
  lookup "params" req = Some (JObj params) ->
  get "name" params = JStr "query_database" ->
  get_or "arguments" (JObj []) params = JObj arguments ->
  lookup "sql" arguments = None \/ lookup "sql" arguments = Some (JStr "") ->
  handle_tools_call req st =
    (match lookup "id" req with
     | Some id => Ok (error_frame id (-32602) "Missing required parameter: sql")
     | None => Raise (KeyError "id")
     end, st).
Proof.
  intros Hp Hname Hargs Hsql.
  unfold handle_tools_call, bind, lift, ret.
  unfold get_or at 1. rewrite Hp. cbn [as_dict].
  rewrite Hname, Hargs. cbn [eq_str String.eqb negb as_dict].
  replace (get_or "sql" (JStr "") arguments) with (JStr "")
    by (unfold get_or; destruct Hsql as [-> | ->]; reflexivity).
  cbn. unfold subscript. now destruct (lookup "id" req).
Qed.

End QueryToolMethods.

(** ** The loop of [query_tool.py] on concrete lines *)

Lemma decoded_request_is_answered_witness :
  exists frame st',
    QueryTool.main_iteration (runtime := Reference.runtime)
      (driver := Sample.healthy) Sample.tools_list_request
      (QueryTool.start Sample.fresh)
    = (Ok [frame], QueryTool.decoded tools_list_decoded st') /\
    answers (JInt 1) frame.
Proof.
  apply (decoded_request_is_answered (runtime := Reference.runtime)
           (driver := Sample.healthy) Sample.tools_list_request
           [("jsonrpc", JStr "2.0"); ("id", JInt 1); ("method", JStr "tools/list")]
           (JInt 1) (QueryTool.start Sample.fresh)).
  - vm_compute. discriminate.
  - vm_compute. reflexivity.
  - reflexivity.
  - discriminate.
Defined.


Example initialized_notification_is_not_answered :
  QueryTool.main_iteration (runtime := Reference.runtime)
    (driver := Sample.healthy) Sample.initialized_notification
    (QueryTool.start Sample.fresh)
  = (Ok [],
     QueryTool.decoded
       (JObj [("jsonrpc", JStr "2.0");
              ("method", JStr "notifications/initialized")])
       Sample.fresh).
Proof. vm_compute. reflexivity. Qed.

Lemma parse_error_line_witness :
  exists frame,
    QueryTool.main (runtime := Reference.runtime) (driver := Sample.healthy)
      [Sample.cut_line; Sample.tools_list_request] Sample.fresh
    = {| QueryTool.printed :=
           [QueryTool.error_frame JNull (-32700) "Parse error"; frame];
         QueryTool.ending := Ok tt;
         QueryTool.final := QueryTool.decoded tools_list_decoded Sample.fresh |} /\
    answers (JInt 1) frame.
Proof.
  unfold QueryTool.main.
  rewrite (parse_error_line (runtime := Reference.runtime)
             (driver := Sample.healthy) Sample.cut_line
             [Sample.tools_list_request] "not a JSON text"
             (QueryTool.start Sample.fresh)).
  - vm_compute. eexists. split; [reflexivity | split; reflexivity].
  - vm_compute. discriminate.
  - right. vm_compute. reflexivity.
Defined.

Lemma request_is_answered_with_previous_id_witness :
  QueryTool.printed
    (QueryTool.main (runtime := Reference.runtime) (driver := Sample.healthy)
       [Sample.tools_list_request; Sample.long_number_request] Sample.fresh)
  = [QueryTool.result_frame (JInt 1)
       (JObj [("tools", JArr [QueryTool.query_database_tool])]);
     QueryTool.error_frame (JInt 1) (-32603)
       ("Internal error: " ++ long_number_message)] /\
  exists frames s',
    QueryTool.main_iteration (runtime := Reference.runtime)
      (driver := Sample.healthy) Sample.tools_list_request
      (QueryTool.start Sample.fresh)
    = (Ok frames, s') /\
    QueryTool.main_iteration (runtime := Reference.runtime)
      (driver := Sample.healthy) Sample.long_number_request s'
    = (Ok [QueryTool.error_frame (JInt 1) (-32603)
             ("Internal error: " ++ long_number_message)], s').
Proof.
  split; [vm_compute; reflexivity |].
  apply (request_is_answered_with_previous_id (runtime := Reference.runtime)
           (driver := Sample.healthy) Sample.tools_list_request
           Sample.long_number_request
           [("jsonrpc", JStr "2.0"); ("id", JInt 1); ("method", JStr "tools/list")]
           (JInt 1) (ValueError long_number_message)
           (QueryTool.start Sample.fresh)).
  - vm_compute. discriminate.
  - vm_compute. reflexivity.
  - reflexivity.
  - vm_compute. discriminate.
  - vm_compute. reflexivity.
  - reflexivity.
Defined.

Lemma undecoded_request_gets_internal_error_witness :
  QueryTool.printed
    (QueryTool.main (runtime := Reference.runtime) (driver := Sample.healthy)
       [Sample.ping_request; Sample.long_ping_request] Sample.fresh)
  = [QueryTool.error_frame (JInt 7) (-32601) "Method ping not found.";
     QueryTool.error_frame (JInt 7) (-32603)
       ("Internal error: " ++ long_number_message)] /\
  exists frame,
    QueryTool.main_iteration (runtime := Reference.runtime)
      (driver := Sample.healthy) Sample.long_ping_request
      (QueryTool.decoded ping_decoded Sample.fresh)
    = (Ok [frame], QueryTool.decoded ping_decoded Sample.fresh) /\
    frame_error_code frame = Some (JInt (-32603)) /\
    frame_id frame = Some (JInt 7).
Proof.
  split; [vm_compute; reflexivity |].
  apply (undecoded_request_gets_internal_error (runtime := Reference.runtime)
           (driver := Sample.healthy) Sample.long_ping_request ping_decoded
           (ValueError long_number_message) Sample.fresh).
  - vm_compute. discriminate.
  - vm_compute. reflexivity.
  - reflexivity.
Defined.

Lemma undecodable_line_ends_main_witness :
  json_loads (PyRuntime := Reference.runtime) (Text.strip Sample.long_cut_line)
  = Raise (ValueError long_number_message) /\
  QueryTool.main (runtime := Reference.runtime) (driver := Sample.healthy)
    [Sample.long_cut_line; Sample.tools_list_request] Sample.fresh
  = {| QueryTool.printed := [];
       QueryTool.ending := Raise (UnboundLocalError "req");
       QueryTool.final := QueryTool.start Sample.fresh |}.
Proof.
  split; [vm_compute; reflexivity |].
  apply (undecodable_line_ends_main (runtime := Reference.runtime)
           (driver := Sample.healthy) Sample.long_cut_line
           [Sample.tools_list_request] (ValueError long_number_message)
           Sample.fresh).
  - vm_compute. discriminate.
  - vm_compute. reflexivity.
  - reflexivity.
Defined.

(** C2, on the code: a notification for [initialize] is answered by a
    frame, the internal error that [req["id"]] raised, with a null id. *)
Theorem initialize_notification_is_answered (driver : QueryTool.Psycopg2)
    (s : QueryTool.loop_state) :
  QueryTool.main_iteration (runtime := Reference.runtime) (driver := driver)
    Sample.initialize_notification s
  = (Ok [QueryTool.error_frame JNull (-32603) "Internal error: 'id'"],
     QueryTool.decoded
       (JObj [("jsonrpc", JStr "2.0"); ("method", JStr "initialize")])
       (QueryTool.database s)).
Proof. reflexivity. Qed.

Lemma empty_sql_is_missing_sql_witness :
  QueryTool.handle_tools_call (runtime := Reference.runtime)
    (driver := Sample.healthy) Sample.empty_sql_call Sample.fresh
  = (Ok (QueryTool.error_frame (JInt 4) (-32602) "Missing required parameter: sql"),
     Sample.fresh).
Proof.
  apply (empty_sql_is_missing_sql (runtime := Reference.runtime)
           (driver := Sample.healthy) Sample.empty_sql_call
           [("name", JStr "query_database"); ("arguments", JObj [("sql", JStr "")])]
           [("sql", JStr "")] Sample.fresh).
  - reflexivity.
  - reflexivity.
  - reflexivity.
  - right. reflexivity.
Defined.

(** ** Facts on texts *)

Section TextFacts.

Import Text.

Lemma append_empty_r (s : string) : (s ++ "")%string = s.
Proof. induction s; cbn; congruence. Qed.

Lemma append_assoc (s t u : string) : ((s ++ t) ++ u)%string = (s ++ t ++ u)%string.
Proof. induction s; cbn; congruence. Qed.

(** A space ends the run being read: what [split] finds before it and
    what it finds after it are found apart. *)
Lemma split_from_space (s cur : string) (sp : ascii) (t : string) :
  isspace sp = true ->
  split_from cur (s ++ String sp t) = (split_from cur s ++ split_from "" t)%list.
Proof.
  intros Hsp. revert cur. induction s as [| c s IH]; intros cur; cbn.
  - rewrite Hsp. now destruct (cur =? "").
  - destruct (isspace c).
    + destruct (cur =? ""); cbn; now rewrite IH.
    + apply IH.
Qed.

(** A text without a space is one run. *)
Lemma split_from_word (w cur : string) :
  no_space w = true ->
  (cur ++ w)%string <> "" ->
  split_from cur w = [(cur ++ w)%string].
Proof.
  revert cur. induction w as [| c w IH]; intros cur Hw Hne; cbn in *.
  - rewrite append_empty_r in *. apply String.eqb_neq in Hne. now rewrite Hne.
  - apply andb_true_iff in Hw. destruct Hw as [Hc Hw].
    apply negb_true_iff in Hc. rewrite Hc.
    rewrite IH; auto.
    + now rewrite append_assoc.
    + rewrite append_assoc. cbn. now destruct cur.
Qed.

Lemma digit_is_no_space (c : ascii) : isdigit_char c = true -> isspace c = false.
Proof.
  unfold isdigit_char, isspace, between. intros H.
  apply andb_true_iff in H. destruct H as [H1 H2].
  apply Nat.leb_le in H1. apply Nat.leb_le in H2.
  apply orb_false_iff. split; apply andb_false_iff.
  - right. apply Nat.leb_gt. lia.
  - right. apply Nat.leb_gt. lia.
Qed.

Lemma digits_have_no_space (s : string) : all_digits s = true -> no_space s = true.
Proof.
  induction s as [| c s IH]; cbn; [reflexivity |].
  intros H. apply andb_true_iff in H. destruct H as [Hc Hs].
  now rewrite (digit_is_no_space _ Hc), IH.
Qed.

Lemma string_of_uint_digits (d : Decimal.uint) :
  all_digits (NilEmpty.string_of_uint d) = true.
Proof. induction d; cbn; auto. Qed.

Lemma to_uint_not_nil (n : nat) : Nat.to_uint n <> Decimal.Nil.
Proof.
  intros H. pose proof (DecimalNat.Unsigned.of_to n) as Hn.
  rewrite H in Hn. cbn in Hn. subst n. discriminate H.
Qed.

Lemma of_nat_not_empty (n : nat) : of_nat n <> "".
Proof.
  unfold of_nat. pose proof (to_uint_not_nil n) as H.
  destruct (Nat.to_uint n); cbn; congruence.
Qed.

(** The decimal text of a number is a text of digits. *)
Lemma of_nat_isdigit (n : nat) : isdigit (of_nat n) = true.
Proof.
  unfold isdigit. apply andb_true_iff. split.
  - apply negb_true_iff, String.eqb_neq, of_nat_not_empty.
  - apply string_of_uint_digits.
Qed.

Lemma int_from_string_of_uint (d : Decimal.uint) (acc : nat) :
  int_from (Z.of_nat acc) (NilEmpty.string_of_uint d)
  = Z.of_nat (Nat.of_uint_acc d acc).
Proof.
  revert acc.
  induction d; intros acc; cbn [NilEmpty.string_of_uint int_from Nat.of_uint_acc];
    try reflexivity;
    rewrite <- IHd; f_equal; rewrite Nat.tail_mul_spec;
    unfold digit_value;
    match goal with
    | |- context [Z.of_nat (code ?c - 48)] =>
        let v := eval vm_compute in (Z.of_nat (code c - 48)) in
        change (Z.of_nat (code c - 48)) with v
    end; lia.
Qed.

(** [int] reads back the number that [str] printed. *)
Lemma int_of_nat (n : nat) : int (of_nat n) = Z.of_nat n.
Proof.
  unfold int, of_nat. change 0%Z with (Z.of_nat 0).
  rewrite (int_from_string_of_uint (Nat.to_uint n) 0).
  change (Nat.of_uint_acc (Nat.to_uint n) 0) with (Nat.of_uint (Nat.to_uint n)).
  now rewrite DecimalNat.Unsigned.of_to.
Qed.

(** The runs of a status text that ends with a space and a number. *)
Lemma split_status (tag : string) (n : nat) :
  split (tag ++ " " ++ of_nat n) = (split tag ++ [of_nat n])%list.
Proof.
  unfold split. cbn [append].
  rewrite split_from_space by reflexivity. f_equal.
  apply (split_from_word (of_nat n) "").
  - apply digits_have_no_space, string_of_uint_digits.
  - apply of_nat_not_empty.
Qed.

Example strip_example : strip ("  Select 1 " ++ nl) = "Select 1".
Proof. reflexivity. Qed.

Example lower_example : lower "WITH t AS (SELECT 1)" = "with t as (select 1)".
Proof. reflexivity. Qed.

Example split_example : split "  INSERT 0   15 " = ["INSERT"; "0"; "15"].
Proof. reflexivity. Qed.

Example isdigit_example :
  isdigit "15" = true /\ isdigit "" = false /\ isdigit "1a" = false /\ isdigit "-1" = false.
Proof. repeat split; reflexivity. Qed.

End TextFacts.

(** ** The executor of [mcp_server2.py] *)

Section PoolFacts.

Import McpServer2.

Context {driver : Asyncpg}.

Lemma row_count_of_tokens (status : string) (tokens : list string) (token : string) :
  Text.split status = (tokens ++ [token])%list ->
  tokens <> [] ->
  Text.isdigit token = true ->
  row_count_of_status status = Text.int token.
Proof.
  intros Hsplit Hne Hdigit. unfold row_count_of_status.
  destruct (status =? "") eqn:E.
  - apply String.eqb_eq in E. subst status. now destruct tokens.
  - cbn [negb]. rewrite Hsplit, last_last, Hdigit, length_app.
    destruct tokens as [| t tokens]; [contradiction |].
    replace (2 <=? List.length (t :: tokens) + List.length [token])%nat
      with true by (symmetry; apply Nat.leb_le; cbn; lia).
    reflexivity.
Qed.

Lemma row_count_of_counted_status (tag : string) (n : nat) :
  Text.split tag <> [] ->
  row_count_of_status (tag ++ " " ++ Text.of_nat n) = Z.of_nat n.
Proof.
  intros Htag.
  rewrite (row_count_of_tokens _ (Text.split tag) (Text.of_nat n)).
  - apply int_of_nat.
  - apply split_status.
  - exact Htag.
  - apply of_nat_isdigit.
Qed.

Lemma row_count_default (status : string) :
  status = "" \/
  (List.length (Text.split status) < 2)%nat \/
  Text.isdigit (last (Text.split status) "") = false ->
  row_count_of_status status = 0%Z.
Proof.
  unfold row_count_of_status. intros [-> | [H | H]].
  - reflexivity.
  - apply Nat.leb_gt in H. rewrite H. now destruct (negb _).
  - rewrite H, andb_false_r. now destruct (negb _).
Qed.

Example row_count_examples :
  row_count_of_status "INSERT 0 15" = 15%Z /\
  row_count_of_status "UPDATE 3" = 3%Z /\
  row_count_of_status "CREATE TABLE" = 0%Z /\
  row_count_of_status "15" = 0%Z /\
  row_count_of_status "" = 0%Z.
Proof. repeat split; reflexivity. Qed.

(** C7.  On a statement that is not a read and that the driver runs,
    [execute_query] returns the status text and a count: the number that
    the last token of the status text reads as, when the text has two
    tokens or more and the last one is made of digits, so the count [n]
    for a status that ends with the number [n]; and zero when the text is
    empty, has fewer than two tokens, or ends with a token that is not
    made of digits. *)
Theorem affected_rows_of_modification (sql : string) (st : pool_state)
    (status : string) :
  is_select sql = false ->
  acquire_outcome st = Ok tt ->
  execute_outcome (called Acquire 1 0 st) sql = Ok status ->
  exists affected,
    fst (execute_query sql st) = Ok (Modification status affected) /\
    (forall tokens token,
        Text.split status = (tokens ++ [token])%list ->
        tokens <> [] ->
        Text.isdigit token = true ->
        affected = Text.int token) /\
    (forall tag n,
        Text.split tag <> [] ->
        status = (tag ++ " " ++ Text.of_nat n)%string ->
        affected = Z.of_nat n) /\
    (status = "" \/
     (List.length (Text.split status) < 2)%nat \/
     Text.isdigit (last (Text.split status) "") = false ->
     affected = 0%Z).
Proof.
  intros Hsel Hacq Hexec. exists (row_count_of_status status).
  split; [| split; [| split]].
  - unfold execute_query, try_except, with_connection, bind, pool_acquire,
      connection_execute, ret.
    now rewrite Hacq, Hsel, Hexec.
  - apply row_count_of_tokens.
  - intros tag n Htag ->. now apply row_count_of_counted_status.
  - apply row_count_default.
Qed.

(** [execute_query] returns: no exception leaves it. *)
Lemma execute_query_returns (sql : string) (st : pool_state) :
  exists r, fst (execute_query sql st) = Ok r.
Proof.
  unfold execute_query, try_except, with_connection, bind, pool_acquire,
    connection_execute, connection_fetch, ret.
  destruct (acquire_outcome st); cbn; [| eauto].
  destruct (is_select sql); cbn.
  - destruct (fetch_outcome _ sql); cbn; eauto.
  - destruct (execute_outcome _ sql); cbn; eauto.
Qed.

(** What the driver raises comes back as a [Failure] with the text of the
    exception and the SQL text that was passed. *)
Lemma execute_query_failure (sql : string) (st : pool_state) (e : exn) :
  driver_raises sql st = Some e ->
  fst (execute_query sql st) = Ok (Failure (str_exn e) sql).
Proof.
  unfold driver_raises, execute_query, try_except, with_connection, bind,
    pool_acquire, connection_execute, connection_fetch, ret.
  destruct (acquire_outcome st); cbn; [| now intros [= ->]].
  destruct (is_select sql); cbn.
  - destruct (fetch_outcome _ sql); cbn; [discriminate | now intros [= ->]].
  - destruct (execute_outcome _ sql); cbn; [discriminate | now intros [= ->]].
Qed.




End PoolFacts.

(** ** The query function of [query_tool.py] *)

Section QueryDbFacts.

Import QueryTool.

Context {driver : Psycopg2}.

Lemma free_locals_closed (entry st : db_state) :
  (open_connections st <= open_connections entry)%nat ->
  free_locals entry st = st.
Proof.
  intros H. unfold free_locals. apply Nat.ltb_ge in H. now rewrite H.
Qed.

Lemma free_locals_open (entry st : db_state) :
  (open_connections entry < open_connections st)%nat ->
  free_locals entry st = called ConnectionDealloc 0 1 st.
Proof.
  intros H. unfold free_locals. apply Nat.ltb_lt in H. now rewrite H.
Qed.

Ltac free_the_locals :=
  first [ rewrite free_locals_closed by (cbn; lia)
        | rewrite free_locals_open by (cbn; lia) ].

Ltac run_query_db :=
  unfold driver_raises, query_db, try_except, bind, lift, ret, psycopg2_connect,
    cursor_execute, cursor_fetchall, connection_commit, cursor_close,
    connection_close; cbn [slice_100 as_str].

(** [query_db] returns: no exception leaves it. *)
Lemma query_db_returns (sql : json) (st : db_state) :
  exists d, fst (query_db sql st) = Ok d.
Proof.
  unfold query_db, try_except.
  match goal with |- context [match ?m st with _ => _ end] => destruct (m st) as [[d | e] st'] end;
    cbn; eauto.
Qed.

(** What the driver raises comes back as a dictionary with the one
    member [error], the text of the exception. *)
Lemma query_db_error (sql : string) (st : db_state) (e : exn) :
  driver_raises sql st = Some e ->
  fst (query_db (JStr sql) st) = Ok [("error", JStr (str_exn e))].
Proof.
  run_query_db.
  destruct (connect_outcome st); cbn; [| now intros [= ->]].
  destruct (execute_outcome _ (JStr sql)); cbn; [| now intros [= ->]].
  destruct (Text.startswith "select" _); cbn.
  - destruct (fetchall_outcome _); cbn; [discriminate | now intros [= ->]].
  - destruct (commit_outcome _); cbn; [discriminate | now intros [= ->]].
Qed.


(** The rows that the driver hands over for a text that starts with
    [select] come back as dictionaries under the member [result]. *)
Lemma query_db_fetches (sql : string) (st : db_state) (rs : result_set) :
  Text.startswith "select" (Text.lower (Text.strip sql)) = true ->
  connect_outcome st = Ok tt ->
  execute_outcome (called Connect 1 0 st) (JStr sql) = Ok tt ->
  fetchall_outcome (called (Execute (JStr sql)) 0 0 (called Connect 1 0 st)) = Ok rs ->
  fst (query_db (JStr sql) st) = Ok [("result", rows_as_dicts rs)].
Proof.
  intros Hsel Hc He Hf. run_query_db.
  rewrite Hc. cbn. rewrite He. cbn. rewrite Hsel. cbn. now rewrite Hf.
Qed.

(** The calls of [query_db] on a text, and what happens to the
    connection: it is closed by [conn.close()] when the driver raised
    nothing; when a call raised after [connect] returned, [conn.close()]
    is not reached, and the connection is closed when it is freed at the
    return; when [connect] raised there is none. *)
Lemma query_db_log (sql : string) (st : db_state) :
  calls (snd (query_db (JStr sql) st))
  = (calls st ++
     match connect_outcome st with
     | Raise _ => [Connect]
     | Ok _ =>
         let st1 := called Connect 1 0 st in
         match execute_outcome st1 (JStr sql) with
         | Raise _ => [Connect; Execute (JStr sql); ConnectionDealloc]
         | Ok _ =>
             let st2 := called (Execute (JStr sql)) 0 0 st1 in
             if Text.startswith "select" (Text.lower (Text.strip sql)) then
               match fetchall_outcome st2 with
               | Raise _ => [Connect; Execute (JStr sql); Fetchall; ConnectionDealloc]
               | Ok _ =>
                   [Connect; Execute (JStr sql); Fetchall; CursorClose; ConnectionClose]
               end
             else
               match commit_outcome st2 with
               | Raise _ => [Connect; Execute (JStr sql); Commit; ConnectionDealloc]
               | Ok _ =>
                   [Connect; Execute (JStr sql); Commit; CursorClose; ConnectionClose]
               end
         end
     end)%list.
Proof.
  run_query_db.
  destruct (connect_outcome st); cbn.
  - destruct (execute_outcome _ (JStr sql)); cbn.
    + destruct (Text.startswith "select" _); cbn.
      * destruct (fetchall_outcome _); cbn; free_the_locals; cbn;
          now rewrite <- !app_assoc.
      * destruct (commit_outcome _); cbn; free_the_locals; cbn;
          now rewrite <- !app_assoc.
    + free_the_locals. cbn. now rewrite <- !app_assoc.
  - free_the_locals. reflexivity.
Qed.


End QueryDbFacts.

(** ** Failures of the driver *)

(** C4, as amended.  Neither executor lets an exception out.  When the
    driver raises, [execute_query] returns a [Failure] with the text of
    the exception and the SQL text it was passed, and [query_db] returns
    a dictionary with the text of the exception alone. *)
Theorem driver_failure_is_returned {pool : McpServer2.Asyncpg}
    {db : QueryTool.Psycopg2} (sql : string) :
  (forall st, exists r, fst (McpServer2.execute_query sql st) = Ok r) /\
  (forall st e,
      McpServer2.driver_raises sql st = Some e ->
      fst (McpServer2.execute_query sql st)
      = Ok (McpServer2.Failure (str_exn e) sql)) /\
  (forall st, exists d, fst (QueryTool.query_db (JStr sql) st) = Ok d) /\
  (forall st e,
      QueryTool.driver_raises sql st = Some e ->
      fst (QueryTool.query_db (JStr sql) st) = Ok [("error", JStr (str_exn e))]).
Proof.
  repeat split.
  - intros st. apply execute_query_returns.
  - intros st e. apply execute_query_failure.
  - intros st. apply query_db_returns.
  - intros st e. apply query_db_error.
Qed.

Lemma driver_failure_is_returned_witness :
  fst (McpServer2.execute_query (driver := Sample.rejecting_pool)
         Sample.misspelt_query Sample.idle)
  = Ok (McpServer2.Failure "syntax error at or near UPDTE" Sample.misspelt_query) /\
  fst (QueryTool.query_db (driver := Sample.rejecting)
         (JStr Sample.misspelt_query) Sample.fresh)
  = Ok [("error", JStr "syntax error at or near SELEC")].
Proof.
  pose (H := driver_failure_is_returned (pool := Sample.rejecting_pool)
               (db := Sample.rejecting) Sample.misspelt_query).
  split.
  - exact (proj1 (proj2 H) Sample.idle
             (DriverError "syntax error at or near UPDTE") eq_refl).
  - exact (proj2 (proj2 (proj2 H)) Sample.fresh
             (DriverError "syntax error at or near SELEC") eq_refl).
Defined.

(** C4, the claim as written fails on [query_db]: what it returns when
    the server cannot be reached is the text of the exception, and the
    SQL text is no part of it. *)
Lemma query_db_error_has_no_sql :
  QueryTool.driver_raises (driver := Sample.unreachable)
    Sample.with_query Sample.fresh
  = Some (DriverError "connection refused") /\
  fst (QueryTool.query_db (driver := Sample.unreachable)
         (JStr Sample.with_query) Sample.fresh)
  = Ok [("error", JStr "connection refused")] /\
  has_key "sql" [("error", JStr "connection refused")] = false.
Proof. repeat split; reflexivity. Qed.

(** ** The executors on concrete statements *)

Lemma affected_rows_of_modification_witness :
  exists affected,
    fst (McpServer2.execute_query (driver := Sample.healthy_pool)
           "UPDATE trips SET tip = 0" Sample.idle)
    = Ok (McpServer2.Modification "UPDATE 3" affected) /\
    affected = 3%Z.
Proof.
  destruct (affected_rows_of_modification (driver := Sample.healthy_pool)
              "UPDATE trips SET tip = 0" Sample.idle "UPDATE 3"
              eq_refl eq_refl eq_refl)
    as [affected [Hresult [_ [Hcount _]]]].
  exists affected. split; [exact Hresult |].
  exact (Hcount "UPDATE" 3%nat ltac:(discriminate) eq_refl).
Defined.





(** [execute_sql] hands on [EXPLAIN ANALYZE] and the text when the flag
    is set and the trimmed, lower-cased text starts with [select], and
    the text as it is otherwise. *)
Lemma with_explain_cases (sql : string) (explain_plan : bool) :
  McpServer2.with_explain sql explain_plan
  = if explain_plan && Text.startswith "select" (Text.strip (Text.lower sql))
    then ("EXPLAIN ANALYZE " ++ sql)%string
    else sql.
Proof. reflexivity. Qed.

(** C9, on the code: with the flag set, [execute_sql] sends a query that
    starts with [WITH], a read for [execute_query], to the driver as it
    is; no plan is asked for. *)
Theorem execute_sql_does_not_explain_with_query :
  McpServer2.is_select Sample.with_query = true /\
  McpServer2.with_explain Sample.with_query true = Sample.with_query /\
  McpServer2.calls
    (snd (McpServer2.execute_sql (runtime := Reference.runtime)
            (driver := Sample.healthy_pool) Sample.with_query true Sample.idle))
  = [McpServer2.Acquire; McpServer2.Fetch Sample.with_query; McpServer2.Release].
Proof. repeat split; reflexivity. Qed.

(* ================================================================== *)
(** * Part III: further properties of the code *)
(* ================================================================== *)

(** ** The loop and the handlers of [query_tool.py] *)

Section QueryToolLoop.

Import QueryTool.

Context {runtime : PyRuntime} {driver : Psycopg2}.

Lemma result_frame_is_response (id result : json) :
  is_response (result_frame id result).
Proof. exists id. left. now exists result. Qed.

Lemma error_frame_is_response (id : json) (code : Z) (message : string) :
  In code error_codes -> is_response (error_frame id code message).
Proof. intros H. exists id. right. now exists code, message. Qed.

Lemma handle_tools_call_response (req : dict) (st st' : db_state) (frame : json) :
  handle_tools_call req st = (Ok frame, st') -> is_response frame.
Proof.
  intros H. unfold handle_tools_call, bind, lift, ret in H.
  run_in H; outcome H;
    first [ apply result_frame_is_response
          | apply error_frame_is_response; cbn; tauto ].
Qed.

Lemma dispatch_responses (req : json) (st st' : db_state) (frames : list json) :
  dispatch req st = (Ok frames, st') ->
  Forall is_response frames /\ (List.length frames <= 1)%nat.
Proof.
  intros H. unfold dispatch, handle_initialize, handle_tools_list,
    send_error_response, bind, lift, ret in H.
  destruct (as_dict req) as [d | e]; [| discriminate H].
  destruct (eq_str (get "method" d) "initialize").
  { destruct (subscript d "id"); outcome H.
    split; [repeat constructor; apply result_frame_is_response | cbn; lia]. }
  destruct (eq_str (get "method" d) "tools/list").
  { destruct (subscript d "id"); outcome H.
    split; [repeat constructor; apply result_frame_is_response | cbn; lia]. }
  destruct (eq_str (get "method" d) "tools/call").
  { destruct (handle_tools_call d st) as [[frame | e] st0] eqn:E; outcome H.
    split; [repeat constructor; eapply handle_tools_call_response; eauto | cbn; lia]. }
  destruct (eq_str (get "method" d) "resources/list").
  { destruct (subscript d "id"); outcome H.
    split; [repeat constructor; apply result_frame_is_response | cbn; lia]. }
  destruct (eq_str (get "method" d) "prompts/list").
  { destruct (subscript d "id"); outcome H.
    split; [repeat constructor; apply result_frame_is_response | cbn; lia]. }
  destruct (lookup "id" d) as [id |]; [destruct (is_none id) |]; outcome H;
    (split; [repeat constructor | cbn; lia]).
  apply error_frame_is_response; cbn; tauto.
Qed.

Lemma main_iteration_responses (line : string) (s s' : loop_state)
    (frames : list json) :
  main_iteration line s = (Ok frames, s') ->
  Forall is_response frames /\ (List.length frames <= 1)%nat.
Proof.
  destruct (Text.strip line =? "") eqn:Eb.
  { unfold main_iteration. rewrite Eb. intros H. outcome H.
    split; [constructor | cbn; lia]. }
  apply String.eqb_neq in Eb.
  destruct (json_loads (Text.strip line)) as [req | e] eqn:El.
  - rewrite (decoded_turn _ _ _ Eb El).
    destruct (dispatch req (database s)) as [[fs | e] st] eqn:E; intros H; outcome H.
    + eapply dispatch_responses; eauto.
    + split; [repeat constructor | cbn; lia].
      apply error_frame_is_response; cbn; tauto.
  - rewrite (undecoded_turn _ _ _ Eb El).
    destruct (is_json_decode_error e).
    + intros H. outcome H. split; [repeat constructor | cbn; lia].
      apply error_frame_is_response; cbn; tauto.
    + destruct (req_local s); intros H; outcome H.
      split; [repeat constructor | cbn; lia].
      apply error_frame_is_response; cbn; tauto.
Qed.

(** X1.  Whatever the input and whatever [req] is bound to, every frame
    that the loop of [main] prints is a response of the protocol, a
    result frame or an error frame with one of the five codes, each with
    the members [jsonrpc] and [id]; and it prints no more frames than it
    read lines. *)
Theorem main_prints_responses (stdin : list string) (s : loop_state) :
  Forall is_response (printed (main_loop stdin s)) /\
  (List.length (printed (main_loop stdin s)) <= List.length stdin)%nat.
Proof.
  revert s. induction stdin as [| line rest IH]; intros s; cbn [main_loop].
  - cbn. split; [constructor | lia].
  - destruct (line =? ""); [cbn; split; [constructor | lia] |].
    destruct (main_iteration line s) as [[frames | e] s1] eqn:E.
    + destruct (main_iteration_responses _ _ _ _ E) as [Hf Hl].
      destruct (IH s1) as [IHf IHl]. cbn [printed List.length]. split.
      * apply Forall_app. now split.
      * rewrite length_app. lia.
    + cbn. split; [constructor | lia].
Qed.

End QueryToolLoop.

Section QueryToolEdges.

Import QueryTool.

Context {runtime : PyRuntime} {driver : Psycopg2}.

Lemma dispatch_keeps_state (req : dict) (st : db_state) :
  eq_str (get "method" req) "tools/call" = false ->
  snd (dispatch (JObj req) st) = st.
Proof.
  intros Hm. unfold dispatch, handle_initialize, handle_tools_list, bind, lift,
    ret, as_dict.
  rewrite Hm.
  repeat match goal with
         | |- context [if ?b then _ else _] => destruct b
         end;
    try (destruct (subscript req "id")); reflexivity.
Qed.

(** X2.  Only [tools/call] reaches the database: a line that is blank,
    does not decode, decodes to something that is no object, or names
    any other method leaves the state of the database, its call log
    included, as it was. *)
Theorem only_tools_call_reaches_database (line : string) (s : loop_state) :
  (forall req,
      json_loads (Text.strip line) = Ok (JObj req) ->
      eq_str (get "method" req) "tools/call" = false) ->
  database (snd (main_iteration line s)) = database s.
Proof.
  intros H.
  destruct (Text.strip line =? "") eqn:Eb.
  { unfold main_iteration. now rewrite Eb. }
  apply String.eqb_neq in Eb.
  destruct (json_loads (Text.strip line)) as [req | e] eqn:E.
  - rewrite (decoded_turn _ _ _ Eb E).
    destruct req;
      try (unfold dispatch, bind, lift, as_dict; reflexivity).
    specialize (H members eq_refl).
    pose proof (dispatch_keeps_state members (database s) H) as Hs.
    destruct (dispatch (JObj members) (database s)) as [[frames | e] st'];
      exact Hs.
  - rewrite (undecoded_turn _ _ _ Eb E).
    destruct (is_json_decode_error e); [reflexivity |].
    now destruct (req_local s).
Qed.

(** X3.  A line that decodes to a value that is no object (an array, a
    number, a text, a truth value, null) gets one frame: the error
    -32603 with a null id, whose message is that of the [AttributeError]
    that [req.get] raised. *)
Theorem non_object_line_is_internal_error (line : string) (v : json)
    (s : loop_state) :
  Text.strip line <> "" ->
  json_loads (Text.strip line) = Ok v ->
  (forall req, v <> JObj req) ->
  main_iteration line s =
    (Ok [error_frame JNull (-32603)
           ("Internal error: '" ++ type_name v ++ "' object has no attribute 'get'")],
     decoded v (database s)).
Proof.
  intros Hline Hv Hobj. rewrite (decoded_turn _ _ _ Hline Hv).
  destruct v; try reflexivity.
  now contradiction (Hobj members).
Qed.

(** X4.  The tools that [tools/list] lists are the tools that
    [tools/call] takes: a call is answered [Unknown tool], with the code
    -32602 and the id of the request and without a call to the database,
    exactly when its [name] is not in the list. *)
Theorem listed_tools_are_the_callable_ones (req params : dict) (id listing : json)
    (st : db_state) :
  lookup "id" req = Some id ->
  lookup "params" req = Some (JObj params) ->
  fst (handle_tools_list req st) = Ok listing ->
  (~ In (get "name" params) (advertised_tools listing) <->
   handle_tools_call req st =
     (Ok (error_frame id (-32602)
            ("Unknown tool: " ++ py_str (get "name" params))), st)).
Proof.
  intros Hid Hp Hl.
  rewrite (handle_tools_list_answers _ _ _ Hid) in Hl. cbn in Hl.
  injection Hl as <-. cbn [advertised_tools get get_or lookup String.eqb
    Ascii.eqb Bool.eqb result_frame map query_database_tool].
  unfold handle_tools_call, bind, lift, ret.
  unfold get_or at 1. rewrite Hp. cbn [as_dict].
  rewrite (subscript_id _ _ Hid).
  destruct (eq_str (get "name" params) "query_database") eqn:En; cbn [negb].
  - assert (Hn : get "name" params = JStr "query_database").
    { destruct (get "name" params); try discriminate En.
      cbn in En. apply String.eqb_eq in En. now subst. }
    split.
    + intros Hno. exfalso. apply Hno. left. now rewrite Hn.
    + intros Hcall. exfalso.
      run_in Hcall; try discriminate Hcall.
  - split; [reflexivity |].
    intros _ [Hin | []]. rewrite <- Hin in En. discriminate En.
Qed.

(** X5.  When the driver raises while a [tools/call] request with an id
    runs a statement, the answer is the error -32001 with that id and
    the text of the exception after [Database error: ]. *)
Theorem tools_call_reports_database_error (req params arguments : dict)
    (id : json) (sql : string) (e : exn) (st : db_state) :
  (forall text, py_str (JStr text) = text) ->
  lookup "params" req = Some (JObj params) ->
  get "name" params = JStr "query_database" ->
  get_or "arguments" (JObj []) params = JObj arguments ->
  lookup "sql" arguments = Some (JStr sql) ->
  sql <> "" ->
  lookup "id" req = Some id ->
  driver_raises sql st = Some e ->
  fst (handle_tools_call req st)
  = Ok (error_frame id (-32001) ("Database error: " ++ str_exn e)).
Proof.
  intros Hstr Hp Hname Hargs Hsql Hne Hid He.
  pose proof (query_db_error sql st e He) as Hq.
  unfold handle_tools_call, bind, lift, ret.
  unfold get_or at 1. rewrite Hp. cbn [as_dict].
  rewrite Hname, Hargs.
  change (eq_str (JStr "query_database") "query_database") with true.
  cbn [negb as_dict].
  replace (get_or "sql" (JStr "") arguments) with (JStr sql)
    by (unfold get_or; now rewrite Hsql).
  cbn [truthy]. apply String.eqb_neq in Hne. rewrite Hne. cbn [negb]. cbv beta.
  destruct (query_db (JStr sql) st) as [r st']. cbn in Hq. subst r.
  rewrite (subscript_id _ _ Hid). cbn. now rewrite Hstr.
Qed.

(** X6.  A [sql] argument that is true for Python and cannot be sliced
    (a number that is not zero, [true], an object that is not empty)
    never reaches the database: the answer is the error -32001 with the
    text of the [TypeError], and the state is unchanged. *)
Theorem unsliceable_sql_is_a_database_error (req params arguments : dict)
    (id sql : json) (e : exn) (st : db_state) :
  (forall text, py_str (JStr text) = text) ->
  lookup "params" req = Some (JObj params) ->
  get "name" params = JStr "query_database" ->
  get_or "arguments" (JObj []) params = JObj arguments ->
  lookup "sql" arguments = Some sql ->
  truthy sql = true ->
  slice_100 sql = Raise e ->
  lookup "id" req = Some id ->
  handle_tools_call req st
  = (Ok (error_frame id (-32001) ("Database error: " ++ str_exn e)), st).
Proof.
  intros Hstr Hp Hname Hargs Hsql Htrue Hslice Hid.
  unfold handle_tools_call, bind, lift, ret.
  unfold get_or at 1. rewrite Hp. cbn [as_dict].
  rewrite Hname, Hargs.
  change (eq_str (JStr "query_database") "query_database") with true.
  cbn [negb as_dict].
  replace (get_or "sql" (JStr "") arguments) with sql
    by (unfold get_or; now rewrite Hsql).
  rewrite Htrue. cbn [negb].
  unfold query_db, try_except, bind, lift, ret. rewrite Hslice.
  rewrite free_locals_closed by lia.
  rewrite (subscript_id _ _ Hid). cbn. now rewrite Hstr.
Qed.

(** X7.  A [tools/call] notification still runs its statement: the
    database is left as [query_db] leaves it, and only then does
    [req["id"]] raise [KeyError]. *)
Theorem tools_call_notification_runs_statement (req params arguments : dict)
    (sql : json) (st : db_state) :
  lookup "params" req = Some (JObj params) ->
  get "name" params = JStr "query_database" ->
  get_or "arguments" (JObj []) params = JObj arguments ->
  lookup "sql" arguments = Some sql ->
  truthy sql = true ->
  lookup "id" req = None ->
  handle_tools_call req st = (Raise (KeyError "id"), snd (query_db sql st)).
Proof.
  intros Hp Hname Hargs Hsql Htrue Hid.
  unfold handle_tools_call, bind, lift, ret.
  unfold get_or at 1. rewrite Hp. cbn [as_dict].
  rewrite Hname, Hargs.
  change (eq_str (JStr "query_database") "query_database") with true.
  cbn [negb as_dict].
  replace (get_or "sql" (JStr "") arguments) with sql
    by (unfold get_or; now rewrite Hsql).
  rewrite Htrue. cbn [negb]. cbv beta.
  destruct (query_db_returns sql st) as [d Hd].
  destruct (query_db sql st) as [r st']. cbn in Hd. subst r.
  unfold subscript. now rewrite Hid.
Qed.

End QueryToolEdges.

(** ** Rows as dictionaries *)

Section RowDictionaries.

Lemma lookup_set (k k' : string) (v : json) (d : dict) :
  lookup k (set k' v d) = if k' =? k then Some v else lookup k d.
Proof.
  induction d as [| [k0 v0] d IH]; cbn.
  - reflexivity.
  - destruct (k0 =? k') eqn:E0; cbn.
    + apply String.eqb_eq in E0. subst k0. now destruct (k' =? k).
    + destruct (k0 =? k) eqn:E1; [| exact IH].
      apply String.eqb_eq in E1. subst k0. now rewrite String.eqb_sym, E0.
Qed.

Lemma lookup_app (k : string) (d d' : dict) :
  lookup k (d ++ d') =
    match lookup k d with
    | Some v => Some v
    | None => lookup k d'
    end.
Proof.
  induction d as [| [k0 v0] d IH]; cbn; [reflexivity |].
  now destruct (k0 =? k).
Qed.

Lemma lookup_fold_set (k : string) (pairs : list (string * json)) (d : dict) :
  lookup k (fold_left (fun d kv => set (fst kv) (snd kv) d) pairs d) =
    match lookup k (rev pairs) with
    | Some v => Some v
    | None => lookup k d
    end.
Proof.
  revert d. induction pairs as [| [k0 v0] pairs IH]; intros d; cbn.
  - reflexivity.
  - rewrite IH, lookup_app, lookup_set. cbn.
    destruct (lookup k (rev pairs)); [reflexivity |].
    now destruct (k0 =? k).
Qed.

Lemma set_keys (k : string) (v : json) (d : dict) :
  map fst (set k v d) = if has_key k d then map fst d else (map fst d ++ [k])%list.
Proof.
  induction d as [| [k0 v0] d IH]; cbn; [reflexivity |].
  destruct (k0 =? k) eqn:E; cbn.
  - apply String.eqb_eq in E. now subst.
  - rewrite IH. now destruct (has_key k d).
Qed.

Lemma has_key_In (k : string) (d : dict) :
  has_key k d = true <-> In k (map fst d).
Proof.
  induction d as [| [k0 v0] d IH]; cbn.
  - split; [discriminate | tauto].
  - rewrite orb_true_iff, IH, String.eqb_eq. tauto.
Qed.

Lemma set_keeps_keys_distinct (k : string) (v : json) (d : dict) :
  NoDup (map fst d) -> NoDup (map fst (set k v d)).
Proof.
  intros H. rewrite set_keys. destruct (has_key k d) eqn:E; [exact H |].
  apply NoDup_app; repeat split; auto.
  - constructor; [tauto | constructor].
  - intros x Hx [<- | []]. apply has_key_In in Hx. congruence.
Qed.

Lemma of_pairs_keys_distinct (pairs : list (string * json)) :
  NoDup (map fst (of_pairs pairs)).
Proof.
  unfold of_pairs.
  assert (H : forall d, NoDup (map fst d) ->
                        NoDup (map fst (fold_left
                          (fun d kv => set (fst kv) (snd kv) d) pairs d))).
  { induction pairs as [| kv pairs IH]; intros d Hd; cbn; [exact Hd |].
    apply IH. now apply set_keeps_keys_distinct. }
  apply H. constructor.
Qed.

Lemma lookup_distinct (k : string) (v : json) (d : dict) :
  NoDup (map fst d) -> In (k, v) d -> lookup k d = Some v.
Proof.
  induction d as [| [k0 v0] d IH]; cbn; [tauto |].
  intros Hnd [Heq | Hin].
  - injection Heq as -> ->. now rewrite String.eqb_refl.
  - inversion Hnd as [| ? ? Hnot Hnd']; subst.
    destruct (k0 =? k) eqn:E.
    + apply String.eqb_eq in E. subst k0. exfalso. apply Hnot.
      change k with (fst (k, v)). now apply in_map.
    + now apply IH.
Qed.

Lemma combine_keys_distinct (cols : list string) (row : list json) :
  NoDup cols -> NoDup (map fst (combine cols row)).
Proof.
  revert row. induction cols as [| c cols IH]; intros row H; cbn.
  - constructor.
  - destruct row as [| v row]; cbn; [constructor |].
    inversion H as [| ? ? Hnot Hnd]; subst. constructor; [| now apply IH].
    intros Hin. apply Hnot. apply in_map_iff in Hin.
    destruct Hin as [[c' v'] [Heq Hin]]. cbn in Heq. subst c'.
    now apply in_combine_l in Hin.
Qed.

Lemma combine_nth_error (cols : list string) (row : list json) (i : nat)
    (c : string) (v : json) :
  nth_error cols i = Some c -> nth_error row i = Some v ->
  In (c, v) (combine cols row).
Proof.
  revert row i. induction cols as [| c0 cols IH]; intros row i Hc Hv.
  - now destruct i.
  - destruct row as [| v0 row]; [now destruct i |].
    destruct i as [| i]; cbn in *.
    + injection Hc as ->. injection Hv as ->. now left.
    + right. eauto.
Qed.

Lemma of_pairs_lookup_distinct (cols : list string) (row : list json) (i : nat)
    (c : string) (v : json) :
  NoDup cols ->
  nth_error cols i = Some c ->
  nth_error row i = Some v ->
  lookup c (of_pairs (combine cols row)) = Some v.
Proof.
  intros Hnd Hc Hv. unfold of_pairs. rewrite lookup_fold_set.
  rewrite (lookup_distinct c v (rev (combine cols row))).
  - reflexivity.
  - rewrite map_rev. apply NoDup_rev. now apply combine_keys_distinct.
  - apply in_rev. rewrite rev_involutive. eapply combine_nth_error; eauto.
Qed.

Lemma of_pairs_lookup_last (pairs : list (string * json)) (c : string) :
  lookup c (of_pairs pairs) = lookup c (rev pairs).
Proof.
  unfold of_pairs. rewrite lookup_fold_set. cbn.
  now destruct (lookup c (rev pairs)).
Qed.

Lemma rows_as_dicts_nth (cols : list string) (rows : list (list json)) (n : nat)
    (row : list json) :
  nth_error rows n = Some row ->
  nth_error (items (QueryTool.rows_as_dicts (cols, rows))) n
  = Some (JObj (of_pairs (combine cols row))).
Proof.
  intros H. unfold QueryTool.rows_as_dicts. cbn [items fst snd].
  rewrite nth_error_map, H. reflexivity.
Qed.

Lemma rows_as_dicts_length (cols : list string) (rows : list (list json)) :
  List.length (items (QueryTool.rows_as_dicts (cols, rows))) = List.length rows.
Proof. unfold QueryTool.rows_as_dicts. cbn [items fst snd]. apply length_map. Qed.

End RowDictionaries.

(** ** What [query_db] returns for a read, and what it does with the connection *)

Section QueryDbRows.

Import QueryTool.

Context {driver : Psycopg2}.

(** X8.  When the driver runs a statement that starts with [select] and
    hands over a result set whose column names are distinct, [query_db]
    returns under [result] one dictionary for each row, in order, and
    the dictionary of a row maps each column name to the value at the
    position of that column in the row. *)
Theorem row_dictionary_lookup (sql : string) (st : db_state) (cols : list string)
    (rows : list (list json)) (n i : nat) (row : list json) (c : string)
    (v : json) :
  Text.startswith "select" (Text.lower (Text.strip sql)) = true ->
  connect_outcome st = Ok tt ->
  execute_outcome (called Connect 1 0 st) (JStr sql) = Ok tt ->
  fetchall_outcome (called (Execute (JStr sql)) 0 0 (called Connect 1 0 st))
  = Ok (cols, rows) ->
  NoDup cols ->
  nth_error rows n = Some row ->
  nth_error cols i = Some c ->
  nth_error row i = Some v ->
  exists result d,
    fst (query_db (JStr sql) st) = Ok [("result", result)] /\
    List.length (items result) = List.length rows /\
    nth_error (items result) n = Some (JObj d) /\
    lookup c d = Some v.
Proof.
  intros Hsel Hconn Hexec Hfetch Hnd Hrow Hc Hv.
  exists (rows_as_dicts (cols, rows)), (of_pairs (combine cols row)).
  split; [| split; [| split]].
  - now apply query_db_fetches.
  - apply rows_as_dicts_length.
  - now apply rows_as_dicts_nth.
  - eapply of_pairs_lookup_distinct; eauto.
Qed.

(** X9.  When several columns of the result set have the same name, the
    dictionary that [query_db] returns for a row has one member for the
    name, with the value of the last of these columns; the values of the
    others are not returned. *)
Theorem row_dictionary_keeps_last_duplicate (sql : string) (st : db_state)
    (cols : list string) (rows : list (list json)) (n : nat) (row : list json) :
  Text.startswith "select" (Text.lower (Text.strip sql)) = true ->
  connect_outcome st = Ok tt ->
  execute_outcome (called Connect 1 0 st) (JStr sql) = Ok tt ->
  fetchall_outcome (called (Execute (JStr sql)) 0 0 (called Connect 1 0 st))
  = Ok (cols, rows) ->
  nth_error rows n = Some row ->
  exists result d,
    fst (query_db (JStr sql) st) = Ok [("result", result)] /\
    nth_error (items result) n = Some (JObj d) /\
    NoDup (map fst d) /\
    forall c, lookup c d = lookup c (rev (combine cols row)).
Proof.
  intros Hsel Hconn Hexec Hfetch Hrow.
  exists (rows_as_dicts (cols, rows)), (of_pairs (combine cols row)).
  split; [| split; [| split]].
  - now apply query_db_fetches.
  - now apply rows_as_dicts_nth.
  - apply of_pairs_keys_distinct.
  - intros c. apply of_pairs_lookup_last.
Qed.

Lemma calls_made_app (st : db_state) (l : list db_call) (st' : db_state) :
  calls st' = (calls st ++ l)%list -> calls_made st st' = l.
Proof.
  intros H. unfold calls_made. rewrite H, skipn_app, skipn_all, Nat.sub_diag.
  reflexivity.
Qed.

(** X10.  [query_db] calls [conn.close()] exactly when no call of the
    driver raised.  When a call raised after [connect] had returned, the
    [except] branch returns without closing, and the connection is
    closed only because it is freed as [query_db] returns; when
    [connect] raised, there is no connection to close. *)
Theorem query_db_connection_balance (sql : string) (st : db_state) :
  (In ConnectionClose (calls_made st (snd (query_db (JStr sql) st))) <->
   driver_raises sql st = None) /\
  (In ConnectionDealloc (calls_made st (snd (query_db (JStr sql) st))) <->
   connect_outcome st = Ok tt /\ driver_raises sql st <> None).
Proof.
  rewrite (calls_made_app _ _ _ (query_db_log sql st)).
  unfold driver_raises.
  destruct (connect_outcome st) as [[] | e0].
  - cbv zeta. destruct (execute_outcome _ (JStr sql)) as [[] | e1].
    + destruct (Text.startswith "select" _).
      * destruct (fetchall_outcome _); cbn; intuition congruence.
      * destruct (commit_outcome _) as [[] | e2]; cbn; intuition congruence.
    + cbn; intuition congruence.
  - cbn; intuition congruence.
Qed.

End QueryDbRows.

(** ** The stream of lines *)

Section QueryToolStream.

Import QueryTool.

Context {runtime : PyRuntime} {driver : Psycopg2}.

(** X11.  The loop handles the lines one after the other, and what a
    turn leaves to the next is the database and the binding of [req]:
    what the loop prints for a stream is what it prints for a first part
    with no empty text, followed by what it prints for the rest from the
    state that the first part left, binding of [req] included; and when
    an exception left the loop in the first part, the rest is not read. *)
Theorem main_on_appended_streams (first rest : list string) (s : loop_state) :
  Forall (fun line => line <> "") first ->
  main_loop (first ++ rest) s =
    match ending (main_loop first s) with
    | Ok _ =>
        {| printed := printed (main_loop first s) ++
                      printed (main_loop rest (final (main_loop first s)));
           ending := ending (main_loop rest (final (main_loop first s)));
           final := final (main_loop rest (final (main_loop first s))) |}
    | Raise _ => main_loop first s
    end.
Proof.
  intros H. revert s. induction H as [| line first Hline _ IH]; intros s.
  - cbn. now destruct (main_loop rest s).
  - cbn [app]. rewrite !main_loop_cons by exact Hline.
    destruct (main_iteration line s) as [[frames | e] s1]; [| reflexivity].
    rewrite IH. cbn [printed ending final].
    destruct (ending (main_loop first s1)) eqn:E; cbn [printed ending final].
    + now rewrite app_assoc.
    + now rewrite E.
Qed.

End QueryToolStream.

(** ** The loop and the handlers on concrete requests *)

Lemma only_tools_call_reaches_database_witness :
  QueryTool.database
    (snd (QueryTool.main_iteration (runtime := Reference.runtime)
            (driver := Sample.rejecting) Sample.tools_list_request
            (QueryTool.start Sample.fresh)))
  = Sample.fresh.
Proof.
  apply (only_tools_call_reaches_database (runtime := Reference.runtime)
           (driver := Sample.rejecting) Sample.tools_list_request
           (QueryTool.start Sample.fresh)).
  intros req H. vm_compute in H. injection H as <-. reflexivity.
Defined.

Lemma non_object_line_is_internal_error_witness :
  QueryTool.main_iteration (runtime := Reference.runtime)
    (driver := Sample.healthy) Sample.array_line (QueryTool.start Sample.fresh)
  = (Ok [QueryTool.error_frame JNull (-32603)
           "Internal error: 'list' object has no attribute 'get'"],
     QueryTool.decoded (JArr [JInt 1; JInt 2]) Sample.fresh).
Proof.
  apply (non_object_line_is_internal_error (runtime := Reference.runtime)
           (driver := Sample.healthy) Sample.array_line
           (JArr [JInt 1; JInt 2]) (QueryTool.start Sample.fresh)).
  - vm_compute. discriminate.
  - vm_compute. reflexivity.
  - discriminate.
Defined.

Lemma listed_tools_are_the_callable_ones_witness :
  In (JStr "query_database")
    (advertised_tools
       (QueryTool.result_frame (JInt 4)
          (JObj [("tools", JArr [QueryTool.query_database_tool])]))) /\
  QueryTool.handle_tools_call (runtime := Reference.runtime)
    (driver := Sample.healthy)
    [("id", JInt 4); ("params", JObj [("name", JStr "describe_table")])]
    Sample.fresh
  = (Ok (QueryTool.error_frame (JInt 4) (-32602) "Unknown tool: describe_table"),
     Sample.fresh).
Proof.
  split; [left; reflexivity |].
  apply (listed_tools_are_the_callable_ones (runtime := Reference.runtime)
           (driver := Sample.healthy)
           [("id", JInt 4); ("params", JObj [("name", JStr "describe_table")])]
           [("name", JStr "describe_table")] (JInt 4)
           (QueryTool.result_frame (JInt 4)
              (JObj [("tools", JArr [QueryTool.query_database_tool])]))
           Sample.fresh); try reflexivity.
  intros [H | []]. discriminate H.
Defined.

Lemma tools_call_reports_database_error_witness :
  fst (QueryTool.handle_tools_call (runtime := Reference.runtime)
         (driver := Sample.rejecting)
         (Sample.tool_call (Some (JInt 2)) [("sql", JStr Sample.misspelt_query)])
         Sample.fresh)
  = Ok (QueryTool.error_frame (JInt 2) (-32001)
          "Database error: syntax error at or near SELEC").
Proof.
  apply (tools_call_reports_database_error (runtime := Reference.runtime)
           (driver := Sample.rejecting)
           (Sample.tool_call (Some (JInt 2)) [("sql", JStr Sample.misspelt_query)])
           [("name", JStr "query_database");
            ("arguments", JObj [("sql", JStr Sample.misspelt_query)])]
           [("sql", JStr Sample.misspelt_query)] (JInt 2) Sample.misspelt_query
           (DriverError "syntax error at or near SELEC") Sample.fresh);
    try reflexivity.
  discriminate.
Defined.

Lemma unsliceable_sql_is_a_database_error_witness :
  QueryTool.handle_tools_call (runtime := Reference.runtime)
    (driver := Sample.healthy)
    (Sample.tool_call (Some (JInt 5)) [("sql", JInt 5)]) Sample.fresh
  = (Ok (QueryTool.error_frame (JInt 5) (-32001)
           "Database error: 'int' object is not subscriptable"),
     Sample.fresh).
Proof.
  apply (unsliceable_sql_is_a_database_error (runtime := Reference.runtime)
           (driver := Sample.healthy)
           (Sample.tool_call (Some (JInt 5)) [("sql", JInt 5)])
           [("name", JStr "query_database"); ("arguments", JObj [("sql", JInt 5)])]
           [("sql", JInt 5)] (JInt 5) (JInt 5)
           (TypeError "'int' object is not subscriptable") Sample.fresh);
    reflexivity.
Defined.

Lemma tools_call_notification_runs_statement_witness :
  QueryTool.handle_tools_call (runtime := Reference.runtime)
    (driver := Sample.healthy)
    (Sample.tool_call None [("sql", JStr "DELETE FROM trips")]) Sample.fresh
  = (Raise (KeyError "id"),
     {| QueryTool.open_connections := 0;
        QueryTool.calls :=
          [QueryTool.Connect; QueryTool.Execute (JStr "DELETE FROM trips");
           QueryTool.Commit; QueryTool.CursorClose; QueryTool.ConnectionClose] |}).
Proof.
  apply (tools_call_notification_runs_statement (runtime := Reference.runtime)
           (driver := Sample.healthy)
           (Sample.tool_call None [("sql", JStr "DELETE FROM trips")])
           [("name", JStr "query_database");
            ("arguments", JObj [("sql", JStr "DELETE FROM trips")])]
           [("sql", JStr "DELETE FROM trips")] (JStr "DELETE FROM trips")
           Sample.fresh);
    reflexivity.
Defined.

Lemma row_dictionary_lookup_witness :
  exists result d,
    fst (QueryTool.query_db (driver := Sample.fares)
           (JStr "select id, fare from trips") Sample.fresh)
    = Ok [("result", result)] /\
    List.length (items result) = 2%nat /\
    nth_error (items result) 1 = Some (JObj d) /\
    lookup "fare" d = Some (JInt 30).
Proof.
  apply (row_dictionary_lookup (driver := Sample.fares)
           "select id, fare from trips" Sample.fresh ["id"; "fare"]
           [[JInt 1; JInt 12]; [JInt 2; JInt 30]] 1 1 [JInt 2; JInt 30]
           "fare" (JInt 30)); try reflexivity.
  repeat constructor; cbn; intuition discriminate.
Defined.

Lemma row_dictionary_keeps_last_duplicate_witness :
  exists result d,
    fst (QueryTool.query_db (driver := Sample.joined)
           (JStr "select t.id, z.id from trips t join zones z on true")
           Sample.fresh)
    = Ok [("result", result)] /\
    nth_error (items result) 0 = Some (JObj d) /\
    lookup "id" d = Some (JInt 2) /\
    List.length d = 1%nat.
Proof.
  destruct (row_dictionary_keeps_last_duplicate (driver := Sample.joined)
              "select t.id, z.id from trips t join zones z on true"
              Sample.fresh ["id"; "id"] [[JInt 1; JInt 2]] 0 [JInt 1; JInt 2]
              eq_refl eq_refl eq_refl eq_refl eq_refl)
    as [result [d [Hr [Hd [_ Hlast]]]]].
  exists result, d. split; [exact Hr |]. split; [exact Hd |].
  split; [exact (Hlast "id") |].
  cbn in Hr. injection Hr as <-. cbn in Hd. injection Hd as <-. reflexivity.
Defined.

Lemma main_on_appended_streams_witness :
  QueryTool.main_loop (runtime := Reference.runtime) (driver := Sample.healthy)
    ([Sample.blank_line; Sample.tools_list_request] ++ [Sample.long_number_request])
    (QueryTool.start Sample.fresh)
  = {| QueryTool.printed :=
         [QueryTool.result_frame (JInt 1)
            (JObj [("tools", JArr [QueryTool.query_database_tool])])] ++
         [QueryTool.error_frame (JInt 1) (-32603)
            ("Internal error: " ++ long_number_message)];
       QueryTool.ending := Ok tt;
       QueryTool.final := QueryTool.decoded tools_list_decoded Sample.fresh |}.
Proof.
  rewrite (main_on_appended_streams (runtime := Reference.runtime)
             (driver := Sample.healthy)
             [Sample.blank_line; Sample.tools_list_request]
             [Sample.long_number_request] (QueryTool.start Sample.fresh)).
  - vm_compute. reflexivity.
  - repeat constructor; discriminate.
Defined.

(** ** Case and blanks in the two tests on the start of a statement *)

Section KeywordTests.

Import Text.

Lemma isspace_lower_char (c : ascii) : isspace (lower_char c) = isspace c.
Proof. destruct c as [[] [] [] [] [] [] [] []]; reflexivity. Qed.

Lemma lower_char_idempotent (c : ascii) : lower_char (lower_char c) = lower_char c.
Proof. destruct c as [[] [] [] [] [] [] [] []]; reflexivity. Qed.

Lemma lower_idempotent (s : string) : lower (lower s) = lower s.
Proof.
  induction s as [| c s IH]; cbn; [reflexivity |].
  now rewrite lower_char_idempotent, IH.
Qed.

Lemma lstrip_lower (s : string) : lstrip (lower s) = lower (lstrip s).
Proof.
  induction s as [| c s IH]; cbn; [reflexivity |].
  rewrite isspace_lower_char. now destruct (isspace c).
Qed.

Lemma rstrip_lower (s : string) : rstrip (lower s) = lower (rstrip s).
Proof.
  induction s as [| c s IH]; cbn; [reflexivity |].
  rewrite IH, isspace_lower_char.
  destruct (rstrip s); cbn; [now destruct (isspace c) | reflexivity].
Qed.

(** Trimming and lower-casing can be done in either order. *)
Lemma strip_lower (s : string) : strip (lower s) = lower (strip s).
Proof. unfold strip. now rewrite lstrip_lower, rstrip_lower. Qed.

Lemma lstrip_leading_spaces (blanks s : string) :
  all_spaces blanks = true -> lstrip (blanks ++ s) = lstrip s.
Proof.
  induction blanks as [| c blanks IH]; cbn; [reflexivity |].
  intros H. apply andb_true_iff in H. destruct H as [-> H]. now apply IH.
Qed.

Lemma rstrip_keeps_head (c : ascii) (s : string) :
  isspace c = false -> exists r, rstrip (String c s) = String c r.
Proof.
  intros H. cbn. rewrite H. destruct (rstrip s); eauto.
Qed.

End KeywordTests.

(** ** The executor and the tool of [mcp_server2.py] *)

Section ExecutorFacts.

Import McpServer2.

Context {runtime : PyRuntime} {driver : Asyncpg}.

(** X12.  The test of [execute_sql], which lower-cases and then trims,
    and the test on [select] of [execute_query] and [query_db], which
    trim and then lower-case, accept the same texts; so a text that
    [execute_sql] rewrites was a read for [execute_query]. *)
Theorem explain_test_is_the_select_test (sql : string) :
  with_explain sql true
  = (if Text.startswith "select" (Text.lower (Text.strip sql))
     then "EXPLAIN ANALYZE " ++ sql else sql)%string /\
  (with_explain sql true <> sql -> is_select sql = true).
Proof.
  unfold with_explain, is_select. cbn [andb]. rewrite strip_lower. split.
  - reflexivity.
  - destruct (Text.startswith "select" (Text.lower (Text.strip sql)));
      [reflexivity | congruence].
Qed.

(** X13.  The classification of a statement looks at neither the case
    of its letters nor the blanks before it. *)
Theorem is_select_ignores_case_and_leading_blanks (blanks sql : string) :
  Text.all_spaces blanks = true ->
  is_select (blanks ++ sql) = is_select sql /\
  is_select (Text.lower sql) = is_select sql.
Proof.
  intros H. unfold is_select. split.
  - unfold Text.strip. now rewrite lstrip_leading_spaces.
  - now rewrite strip_lower, lower_idempotent.
Qed.

Lemma explained_is_not_select (sql : string) :
  is_select ("EXPLAIN ANALYZE " ++ sql) = false.
Proof.
  unfold is_select, Text.strip.
  change (Text.lstrip ("EXPLAIN ANALYZE " ++ sql))
    with (String "E" ("XPLAIN ANALYZE " ++ sql)).
  destruct (rstrip_keeps_head "E" ("XPLAIN ANALYZE " ++ sql) eq_refl) as [r ->].
  reflexivity.
Qed.

Lemma explained_select_run (sql status : string) (st : pool_state) :
  Text.startswith "select" (Text.lower (Text.strip sql)) = true ->
  acquire_outcome st = Ok tt ->
  execute_outcome (called Acquire 1 0 st) ("EXPLAIN ANALYZE " ++ sql) = Ok status ->
  execute_sql sql true st =
    (Ok (format_result (Modification status (row_count_of_status status))),
     pool_release
       (called (Execute ("EXPLAIN ANALYZE " ++ sql)) 0 0 (called Acquire 1 0 st))).
Proof.
  intros Hsel Hacq Hexec.
  destruct (explain_test_is_the_select_test sql) as [Hw _].
  rewrite Hsel in Hw.
  unfold execute_sql.
  destruct (Text.strip sql =? "") eqn:E.
  { apply String.eqb_eq in E. rewrite E in Hsel. discriminate Hsel. }
  rewrite Hw.
  unfold bind, execute_query, try_except, with_connection, bind, pool_acquire,
    connection_execute, ret.
  rewrite Hacq, explained_is_not_select. cbv beta iota.
  rewrite Hexec. reflexivity.
Qed.

(** X14.  With the flag set, a statement that starts with [select] is
    not fetched: [execute_sql] has the driver execute [EXPLAIN ANALYZE]
    and the statement as a modification, and answers with the status
    text and a count read off it; the rows of the plan are not asked
    for. *)
Theorem explained_select_is_executed (sql status : string) (st : pool_state) :
  Text.startswith "select" (Text.lower (Text.strip sql)) = true ->
  acquire_outcome st = Ok tt ->
  execute_outcome (called Acquire 1 0 st) ("EXPLAIN ANALYZE " ++ sql) = Ok status ->
  fst (execute_sql sql true st)
  = Ok ("Query executed successfully." ++ Text.nl ++ status ++ Text.nl ++
        "Affected rows: " ++ Text.of_Z (row_count_of_status status))%string /\
  calls (snd (execute_sql sql true st))
  = (calls st ++ [Acquire; Execute ("EXPLAIN ANALYZE " ++ sql); Release])%list.
Proof.
  intros Hsel Hacq Hexec.
  rewrite (explained_select_run sql status st Hsel Hacq Hexec).
  split; [reflexivity |].
  unfold pool_release, called. cbn [snd calls]. now rewrite <- !app_assoc.
Qed.

End ExecutorFacts.

Section ExecutorEffects.

Import McpServer2.

Context {runtime : PyRuntime} {driver : Asyncpg}.

(** X15.  Every call of [execute_query] returns, holds as many
    connections afterwards as before, and asks the pool for one
    connection; it sends the statement once when the connection is
    granted, as a fetch or as an execute, and releases the connection;
    when the acquisition fails it sends nothing. *)
Theorem execute_query_effects (sql : string) (st : pool_state) :
  (exists r, fst (execute_query sql st) = Ok r) /\
  held (snd (execute_query sql st)) = held st /\
  calls (snd (execute_query sql st))
  = (calls st ++
     match acquire_outcome st with
     | Ok _ => [Acquire; if is_select sql then Fetch sql else Execute sql; Release]
     | Raise _ => [Acquire]
     end)%list.
Proof.
  split; [apply execute_query_returns |].
  unfold execute_query, try_except, with_connection, bind, pool_acquire,
    connection_execute, connection_fetch, ret, pool_release.
  destruct (acquire_outcome st); cbn; [| split; [lia | reflexivity]].
  destruct (is_select sql); cbn.
  - destruct (fetch_outcome _ sql); cbn; rewrite <- !app_assoc; split;
      first [lia | reflexivity].
  - destruct (execute_outcome _ sql); cbn; rewrite <- !app_assoc; split;
      first [lia | reflexivity].
Qed.

(** X16.  Every call of [execute_sql] returns a text and holds as many
    connections afterwards as before; a statement of blanks only is
    refused without a call to the pool. *)
Theorem execute_sql_effects (sql : string) (explain_plan : bool) (st : pool_state) :
  (exists text, fst (execute_sql sql explain_plan st) = Ok text) /\
  held (snd (execute_sql sql explain_plan st)) = held st /\
  (Text.strip sql = "" ->
   execute_sql sql explain_plan st = (Ok "Error: No SQL query provided", st)).
Proof.
  unfold execute_sql.
  destruct (execute_query_effects (with_explain sql explain_plan) st)
    as [[r Hr] [Hheld _]].
  destruct (Text.strip sql =? "") eqn:E.
  - cbn. repeat split; eauto.
  - unfold bind.
    destruct (execute_query (with_explain sql explain_plan) st) as [r0 st'].
    cbn in Hr, Hheld. subst r0. cbn. repeat split; eauto.
    intros H. rewrite H in E. discriminate E.
Qed.

Lemma int_from_not_negative (s : string) (acc : Z) :
  (0 <= acc)%Z -> (0 <= Text.int_from acc s)%Z.
Proof.
  revert acc. induction s as [| c s IH]; intros acc H; cbn [Text.int_from];
    [exact H |].
  apply IH. unfold Text.digit_value. lia.
Qed.

Lemma row_count_not_negative (status : string) :
  (0 <= row_count_of_status status)%Z.
Proof.
  unfold row_count_of_status.
  destruct (negb (status =? "")); [| lia].
  destruct (_ && _); [| lia].
  apply int_from_not_negative. lia.
Qed.

(** X17.  The count of affected rows that [execute_query] returns for a
    modification is never negative, whatever status text the driver
    gave. *)
Theorem affected_rows_is_not_negative (sql : string) (st : pool_state)
    (message : string) (affected : Z) :
  fst (execute_query sql st) = Ok (Modification message affected) ->
  (0 <= affected)%Z.
Proof.
  unfold execute_query, try_except, with_connection, bind, pool_acquire,
    connection_execute, connection_fetch, ret.
  destruct (acquire_outcome st); cbn; [| discriminate].
  destruct (is_select sql); cbn.
  - destruct (fetch_outcome _ sql); cbn; discriminate.
  - destruct (execute_outcome _ sql); cbn; [| discriminate].
    intros H. inversion H; subst. apply row_count_not_negative.
Qed.

Lemma row_dict_as_pairs (row : record) :
  row_dict row
  = of_pairs (map (fun item => (fst item, returned_value (snd item))) row).
Proof.
  unfold row_dict, of_pairs. generalize (@nil (string * json)).
  induction row as [| [k v] row IH]; intros d; cbn; [reflexivity |].
  rewrite <- IH. now destruct v.
Qed.

Lemma row_dict_lookup (row : record) (k : string) (v : db_value) :
  NoDup (map fst row) -> In (k, v) row ->
  lookup k (row_dict row) = Some (returned_value v).
Proof.
  intros Hnd Hin. rewrite row_dict_as_pairs, of_pairs_lookup_last.
  apply lookup_distinct.
  - rewrite map_rev, map_map. cbn. apply NoDup_rev. exact Hnd.
  - apply in_rev. rewrite rev_involutive.
    apply (in_map (fun item => (fst item, returned_value (snd item))) row (k, v)).
    exact Hin.
Qed.

(** X18.  For a read that the driver answers, [execute_query] returns
    one dictionary for each record fetched, in the same order, and the
    number of records as [row_count]; in a record with distinct column
    names a value that is not a [datetime] is returned as it is, and a
    [datetime] as the text of its [isoformat()]. *)
Theorem fetched_rows_keep_their_values (sql : string) (st : pool_state)
    (records : list record) :
  is_select sql = true ->
  acquire_outcome st = Ok tt ->
  fetch_outcome (called Acquire 1 0 st) sql = Ok records ->
  fst (execute_query sql st)
  = Ok (Select (map row_dict records) (List.length records)) /\
  forall row k v,
    In row records -> NoDup (map fst row) -> In (k, v) row ->
    lookup k (row_dict row) = Some (returned_value v).
Proof.
  intros Hsel Hacq Hfetch. split.
  - unfold execute_query, try_except, with_connection, bind, pool_acquire,
      connection_fetch, ret.
    rewrite Hacq, Hsel. cbv beta iota. rewrite Hfetch. cbn.
    now rewrite length_map.
  - intros row k v _. apply row_dict_lookup.
Qed.

End ExecutorEffects.

(** ** The schema cache of [mcp_server2.py] *)

Section SchemaCacheFacts.

Import McpServer2.

Lemma table_update_same (t : string) (f : table_info -> table_info) (c : cache) :
  table t (update_table t f c) = option_map f (table t c).
Proof.
  induction c as [| [t' info] c IH]; cbn; [reflexivity |].
  destruct (t' =? t) eqn:E; cbn; rewrite E; [reflexivity | exact IH].
Qed.

Lemma table_update_other (t t' : string) (f : table_info -> table_info) (c : cache) :
  (t' =? t) = false -> table t (update_table t' f c) = table t c.
Proof.
  intros Hne. induction c as [| [t0 info] c IH]; cbn; [reflexivity |].
  destruct (t0 =? t') eqn:E; cbn.
  - apply String.eqb_eq in E. subst t0. now rewrite Hne.
  - now rewrite IH.
Qed.

Lemma table_app (t : string) (c c' : cache) :
  table t (c ++ c') =
    match table t c with
    | Some info => Some info
    | None => table t c'
    end.
Proof.
  induction c as [| [t0 info] c IH]; cbn; [reflexivity |].
  now destruct (t0 =? t).
Qed.

Lemma has_table_table (t : string) (c : cache) :
  has_table t c = match table t c with Some _ => true | None => false end.
Proof.
  induction c as [| [t0 info] c IH]; cbn; [reflexivity |].
  now destruct (t0 =? t).
Qed.

Lemma cache_row_table (c : cache) (row : schema_row) (t : string) :
  table t (cache_row c row) =
    if table_name row =? t
    then Some {| columns := columns (info_or_empty (table t c)) ++
                            columns_of_rows [row];
                 constraints := constraints (info_or_empty (table t c)) ++
                                constraints_of_rows [row] |}
    else table t c.
Proof.
  unfold cache_row, columns_of_rows, constraints_of_rows. cbn [flat_map].
  rewrite !app_nil_r.
  destruct (table_name row =? t) eqn:E.
  - apply String.eqb_eq in E. subst t.
    set (t := table_name row).
    assert (H1 : table t (if has_table t c then c
                          else c ++ [(t, {| columns := []; constraints := [] |})])
                 = Some (info_or_empty (table t c))).
    { rewrite has_table_table. destruct (table t c) eqn:Et; cbn.
      - exact Et.
      - rewrite table_app, Et. cbn. now rewrite String.eqb_refl. }
    destruct (column_of_row row) as [col |];
      destruct (constraint_of_row row) as [label |];
      rewrite ?table_update_same, H1; cbn;
      destruct (info_or_empty (table t c)); cbn; now rewrite ?app_nil_r.
  - assert (H1 : table t (if has_table (table_name row) c then c
                          else c ++ [(table_name row,
                                      {| columns := []; constraints := [] |})])
                 = table t c).
    { destruct (has_table (table_name row) c); [reflexivity |].
      rewrite table_app. destruct (table t c); [reflexivity |].
      cbn. now rewrite E. }
    destruct (column_of_row row); destruct (constraint_of_row row);
      rewrite ?table_update_other by exact E; exact H1.
Qed.

Lemma rows_of_table_cons (t : string) (row : schema_row) (rows : list schema_row) :
  rows_of_table t (row :: rows)
  = if table_name row =? t then row :: rows_of_table t rows else rows_of_table t rows.
Proof. reflexivity. Qed.

(** X19.  The loop of [cache_schema_info] leaves, for each table, the
    entry it had with, appended in the order of the rows, one column for
    each row that names the table and has a column name, and one label
    for each such row that has a constraint type; a table that no row
    names and that had no entry has none. *)
Theorem cached_table (c : cache) (rows : list schema_row) (t : string) :
  table t (fold_left cache_row rows c) =
    match table t c, rows_of_table t rows with
    | None, [] => None
    | old, named =>
        Some {| columns := columns (info_or_empty old) ++ columns_of_rows named;
                constraints := constraints (info_or_empty old) ++
                               constraints_of_rows named |}
    end.
Proof.
  revert c. induction rows as [| row rows IH]; intros c.
  - cbn. destruct (table t c) as [[cols cons] |]; cbn; [| reflexivity].
    now rewrite !app_nil_r.
  - cbn [fold_left]. rewrite IH, cache_row_table, rows_of_table_cons.
    destruct (table_name row =? t); [| reflexivity].
    unfold columns_of_rows, constraints_of_rows. cbn [flat_map info_or_empty
      columns constraints]. rewrite !app_nil_r, <- !app_assoc.
    destruct (table t c) as [[cols cons] |]; cbn [info_or_empty columns constraints];
      destruct (rows_of_table t rows); reflexivity.
Qed.

End SchemaCacheFacts.

Section SchemaCacheJoin.

Import McpServer2.

Lemma rows_of_table_all (t : string) (rows : list schema_row) :
  Forall (fun row => table_name row = t) rows -> rows_of_table t rows = rows.
Proof.
  induction 1 as [| row rows Hrow _ IH]; [reflexivity |].
  rewrite rows_of_table_cons, Hrow, String.eqb_refl. now rewrite IH.
Qed.

Lemma columns_of_rows_app (rows rows' : list schema_row) :
  columns_of_rows (rows ++ rows') = (columns_of_rows rows ++ columns_of_rows rows')%list.
Proof. apply flat_map_app. Qed.

Lemma constraints_of_rows_app (rows rows' : list schema_row) :
  constraints_of_rows (rows ++ rows')
  = (constraints_of_rows rows ++ constraints_of_rows rows')%list.
Proof. apply flat_map_app. Qed.

Lemma joined_columns (row : schema_row) (labels : list string) :
  columns_of_rows (map (fun label => with_constraint label row) labels)
  = flat_map (fun col => repeat col (List.length labels)) (columns_of_rows [row]).
Proof.
  unfold columns_of_rows. cbn [flat_map]. rewrite app_nil_r.
  induction labels as [| label labels IH]; cbn [map flat_map List.length].
  - now destruct (column_of_row row).
  - rewrite IH.
    change (column_of_row (with_constraint label row)) with (column_of_row row).
    destruct (column_of_row row); cbn; [now rewrite !app_nil_r | reflexivity].
Qed.

Lemma joined_constraints (row : schema_row) (labels : list string) :
  Forall (fun label => label <> "") labels ->
  constraints_of_rows (map (fun label => with_constraint label row) labels) = labels.
Proof.
  unfold constraints_of_rows.
  induction 1 as [| label labels Hlabel _ IH]; cbn [map flat_map]; [reflexivity |].
  rewrite IH. unfold constraint_of_row. cbn.
  apply String.eqb_neq in Hlabel. now rewrite Hlabel.
Qed.

(** X20.  When the join answers with one row for each pair of a column
    and a constraint of a table, the cache built from nothing holds
    every column of the table as many times as the table has
    constraints, and the list of its constraints as many times as it has
    columns. *)
Theorem join_repeats_columns (t : string) (column_rows : list schema_row)
    (labels : list string) :
  column_rows <> [] ->
  labels <> [] ->
  Forall (fun row => table_name row = t) column_rows ->
  Forall (fun label => label <> "") labels ->
  table t
    (fold_left cache_row
       (flat_map (fun row => map (fun label => with_constraint label row) labels)
          column_rows) [])
  = Some {| columns :=
              flat_map (fun col => repeat col (List.length labels))
                (columns_of_rows column_rows);
            constraints := flat_map (fun _ => labels) column_rows |}.
Proof.
  intros Hrows Hlabels Hnamed Hne.
  set (rows := flat_map _ column_rows).
  assert (Hall : Forall (fun row => table_name row = t) rows).
  { subst rows. apply Forall_flat_map.
    eapply Forall_impl; [| exact Hnamed]. intros row Hrow.
    apply Forall_map. apply Forall_forall. intros label _. exact Hrow. }
  assert (Hcols : columns_of_rows rows
                  = flat_map (fun col => repeat col (List.length labels))
                      (columns_of_rows column_rows)).
  { subst rows. clear Hrows Hnamed Hall.
    induction column_rows as [| row column_rows IH]; [reflexivity |].
    cbn [flat_map]. rewrite columns_of_rows_app, joined_columns, IH.
    change (row :: column_rows) with ([row] ++ column_rows)%list.
    now rewrite columns_of_rows_app, flat_map_app. }
  assert (Hcons : constraints_of_rows rows = flat_map (fun _ => labels) column_rows).
  { subst rows. clear Hrows Hnamed Hall Hcols.
    induction column_rows as [| row column_rows IH]; [reflexivity |].
    cbn [flat_map].
    rewrite constraints_of_rows_app, joined_constraints by exact Hne.
    now rewrite IH. }
  rewrite cached_table, (rows_of_table_all t rows Hall).
  cbn [table info_or_empty columns constraints app].
  destruct rows as [| row rows'] eqn:E.
  - exfalso. subst rows.
    destruct column_rows as [| row column_rows]; [contradiction |].
    destruct labels as [| label labels]; [contradiction |].
    discriminate E.
  - now rewrite Hcols, Hcons.
Qed.

End SchemaCacheJoin.

Section SchemaTools.

Import McpServer2.

Context {runtime : PyRuntime} {driver : Asyncpg} {catalog : Catalog}.

(** X21.  [cache_schema_info] never raises and holds as many connections
    afterwards as before.  It changes the cache only when the pool is
    set, the acquisition returns and the introspection query is
    answered; when one of the three fails, the cache is left as it was
    and the failure is not reported to the caller. *)
Theorem cache_schema_info_effects (s : server_state) :
  fst (cache_schema_info s) = Ok tt /\
  db_pool (snd (cache_schema_info s)) = db_pool s /\
  held (pool (snd (cache_schema_info s))) = held (pool s) /\
  schema_cache (snd (cache_schema_info s)) =
    match db_pool s, acquire_outcome (pool s),
          introspection_outcome (called Acquire 1 0 (pool s)) with
    | true, Ok _, Ok rows => fold_left cache_row rows (schema_cache s)
    | _, _, _ => schema_cache s
    end.
Proof.
  unfold cache_schema_info, try_except, bind, db_pool_acquire, on_pool,
    pool_acquire, fetch_schema_rows, cache_rows, db_pool_release, pool_release,
    ret.
  destruct (db_pool s) eqn:Ep; cbn; [| now rewrite Ep].
  destruct (acquire_outcome (pool s)); cbn.
  - destruct (introspection_outcome _); cbn; repeat split; lia.
  - repeat split. lia.
Qed.

(** X22.  [initialize_database] raises exactly when [create_pool]
    raises, and then changes nothing; once the pool is created it
    returns with the pool set, whether or not the schema could be
    cached. *)
Theorem initialize_database_outcome (s : server_state) :
  match create_pool_outcome with
  | Raise e => initialize_database s = (Raise e, s)
  | Ok _ =>
      fst (initialize_database s) = Ok tt /\
      db_pool (snd (initialize_database s)) = true /\
      held (pool (snd (initialize_database s))) = held (pool s)
  end.
Proof.
  unfold initialize_database, try_except, bind, asyncpg_create_pool, raise.
  destruct create_pool_outcome; [| reflexivity].
  set (s1 := {| db_pool := true; pool := pool s; schema_cache := schema_cache s |}).
  destruct (cache_schema_info_effects s1) as [Hr [Hp [Hh _]]].
  destruct (cache_schema_info s1) as [r s2]. cbn in *. subst r.
  repeat split; assumption.
Qed.

(** X23.  [get_schema] answers for a table that the cache does not hold
    with the empty object, not with an error; this is the answer for any
    table that had no entry and that no row of the introspection
    answer names. *)
Theorem get_schema_of_unlisted_table (c : cache) (rows : list schema_row)
    (t : string) :
  t <> "" ->
  table t c = None ->
  Forall (fun row => table_name row <> t) rows ->
  get_schema (fold_left cache_row rows c) (Some t)
  = ("Schema for table '" ++ t ++ "':" ++ Text.nl ++ json_dumps (JObj []))%string.
Proof.
  intros Ht Hc Hrows. unfold get_schema.
  apply String.eqb_neq in Ht. rewrite Ht, cached_table, Hc.
  assert (Hnone : rows_of_table t rows = []).
  { induction Hrows as [| row rows Hrow _ IH]; [reflexivity |].
    rewrite rows_of_table_cons. apply String.eqb_neq in Hrow. now rewrite Hrow. }
  now rewrite Hnone.
Qed.

Lemma columns_extend (cols : list column_info) (context : string) :
  exists tail,
    fold_left (fun context col => (context ++ column_line col)%string) cols context
    = (context ++ tail)%string.
Proof.
  revert context. induction cols as [| col cols IH]; intros context;
    cbn [fold_left].
  - exists ""%string. now rewrite append_empty_r.
  - destruct (IH (context ++ column_line col)%string) as [tail ->].
    exists (column_line col ++ tail)%string. apply append_assoc.
Qed.

Lemma columns_written (cols : list column_info) (context : string) (col : column_info) :
  In col cols ->
  exists before after,
    fold_left (fun context col => (context ++ column_line col)%string) cols context
    = (before ++ column_line col ++ after)%string.
Proof.
  revert context. induction cols as [| col0 cols IH]; intros context Hin;
    [contradiction |].
  cbn [fold_left]. destruct Hin as [-> | Hin].
  - destruct (columns_extend cols (context ++ column_line col)%string) as [tail ->].
    exists context, tail. apply append_assoc.
  - now apply IH.
Qed.

Lemma tables_extend (c : cache) (context : string) :
  exists tail,
    fold_left
      (fun context entry =>
         fold_left (fun context col => (context ++ column_line col)%string)
           (columns (snd entry))
           (context ++ Text.nl ++ "Table: " ++ fst entry ++ Text.nl ++
            "Columns:" ++ Text.nl)%string)
      c context
    = (context ++ tail)%string.
Proof.
  revert context. induction c as [| entry c IH]; intros context; cbn [fold_left].
  - exists ""%string. now rewrite append_empty_r.
  - match goal with
    | |- context [fold_left _ c ?start] => destruct (IH start) as [tail ->]
    end.
    match goal with
    | |- context [fold_left ?f (columns (snd entry)) ?start] =>
        destruct (columns_extend (columns (snd entry)) start) as [tail' ->]
    end.
    eexists. rewrite !append_assoc. reflexivity.
Qed.

(** X24.  The text of [get_schema_context] starts with the heading and
    has, for every column of every table of the cache, the line of that
    column with its type, its nullability and its default. *)
Theorem schema_context_lists_columns (c : cache) :
  (exists tail, get_schema_context c = ("Database Schema:" ++ Text.nl ++ tail)%string) /\
  forall t info col,
    In (t, info) c -> In col (columns info) ->
    exists before after,
      get_schema_context c = (before ++ column_line col ++ after)%string.
Proof.
  unfold get_schema_context. split.
  - destruct (tables_extend c ("Database Schema:" ++ Text.nl)%string) as [tail ->].
    exists tail. apply append_assoc.
  - generalize ("Database Schema:" ++ Text.nl)%string.
    induction c as [| entry c IH]; intros context t info col Hin Hcol;
      [contradiction |].
    cbn [fold_left]. destruct Hin as [-> | Hin].
    + cbn [fst snd].
      match goal with
      | |- context [fold_left ?f (columns info) ?start] =>
          destruct (columns_written (columns info) start col Hcol)
            as [before [after ->]]
      end.
      destruct (tables_extend c (before ++ column_line col ++ after)%string)
        as [tail ->].
      exists before, (after ++ tail)%string. now rewrite !append_assoc.
    + eapply IH; eauto.
Qed.

Lemma table_lines_extend (c : cache) (response : string) :
  exists tail,
    fold_left
      (fun response entry => (response ++ "- " ++ fst entry ++ Text.nl)%string)
      c response
    = (response ++ tail)%string.
Proof.
  revert response. induction c as [| entry c IH]; intros response; cbn [fold_left].
  - exists ""%string. now rewrite append_empty_r.
  - destruct (IH (response ++ "- " ++ fst entry ++ Text.nl)%string) as [tail ->].
    eexists. rewrite !append_assoc. reflexivity.
Qed.

Lemma table_lines_written (c : cache) (response t : string) (info : table_info) :
  In (t, info) c ->
  exists before after,
    fold_left
      (fun response entry => (response ++ "- " ++ fst entry ++ Text.nl)%string)
      c response
    = (before ++ "- " ++ t ++ Text.nl ++ after)%string.
Proof.
  revert response. induction c as [| entry c IH]; intros response Hin;
    [contradiction |].
  cbn [fold_left]. destruct Hin as [-> | Hin].
  - cbn [fst].
    destruct (table_lines_extend c (response ++ "- " ++ t ++ Text.nl)%string)
      as [tail ->].
    exists response, tail. now rewrite !append_assoc.
  - now apply IH.
Qed.

(** X25.  [natural_language_query] refuses a question of blanks only;
    for any other question its answer names every table of the cache on
    a line of its own and ends with the text of [get_schema_context];
    the flag [return_sql] changes nothing. *)
Theorem natural_language_query_answer (c : cache) (question : string)
    (return_sql : bool) :
  (Text.strip question = "" ->
   natural_language_query c question return_sql = "Error: No question provided") /\
  (Text.strip question <> "" ->
   (exists before,
       natural_language_query c question return_sql
       = (before ++ "Schema Details:" ++ Text.nl ++ get_schema_context c)%string) /\
   (forall t info,
       In (t, info) c ->
       exists before after,
         natural_language_query c question return_sql
         = (before ++ "- " ++ t ++ Text.nl ++ after)%string)) /\
  natural_language_query c question return_sql
  = natural_language_query c question (negb return_sql).
Proof.
  unfold natural_language_query. split; [| split].
  - intros ->. reflexivity.
  - intros H. apply String.eqb_neq in H. rewrite H. split.
    + eexists. rewrite <- !append_assoc. reflexivity.
    + intros t info Hin.
      match goal with
      | |- context [fold_left ?f c ?start] =>
          destruct (table_lines_written c start t info Hin) as [before [after ->]]
      end.
      exists before. eexists. rewrite !append_assoc. reflexivity.
  - reflexivity.
Qed.

End SchemaTools.

(** ** The executor and the schema tools on concrete data *)

Lemma is_select_ignores_case_and_leading_blanks_witness :
  McpServer2.is_select ("  " ++ "Select 1") = McpServer2.is_select "Select 1" /\
  McpServer2.is_select (Text.lower "Select 1") = McpServer2.is_select "Select 1".
Proof.
  apply (is_select_ignores_case_and_leading_blanks "  " "Select 1").
  reflexivity.
Defined.

Lemma explained_select_is_executed_witness :
  fst (McpServer2.execute_sql (runtime := Reference.runtime)
         (driver := Sample.healthy_pool) "select 1" true Sample.idle)
  = Ok ("Query executed successfully." ++ Text.nl ++ "UPDATE 3" ++ Text.nl ++
        "Affected rows: " ++
        Text.of_Z (McpServer2.row_count_of_status "UPDATE 3"))%string /\
  McpServer2.calls
    (snd (McpServer2.execute_sql (runtime := Reference.runtime)
            (driver := Sample.healthy_pool) "select 1" true Sample.idle))
  = [McpServer2.Acquire; McpServer2.Execute "EXPLAIN ANALYZE select 1";
     McpServer2.Release].
Proof.
  apply (explained_select_is_executed (runtime := Reference.runtime)
           (driver := Sample.healthy_pool) "select 1" "UPDATE 3" Sample.idle);
    reflexivity.
Defined.

Lemma affected_rows_is_not_negative_witness : (0 <= 3)%Z.
Proof.
  apply (affected_rows_is_not_negative (driver := Sample.healthy_pool)
           "UPDATE trips SET tip = 0" Sample.idle "UPDATE 3" 3).
  reflexivity.
Defined.

Lemma fetched_rows_keep_their_values_witness :
  fst (McpServer2.execute_query (driver := Sample.healthy_pool) "select 1"
         Sample.idle)
  = Ok (McpServer2.Select [[("x", JInt 1)]] 1) /\
  lookup "x" (McpServer2.row_dict [("x", McpServer2.Plain (JInt 1))])
  = Some (JInt 1).
Proof.
  destruct (fetched_rows_keep_their_values (driver := Sample.healthy_pool)
              "select 1" Sample.idle [[("x", McpServer2.Plain (JInt 1))]]
              eq_refl eq_refl eq_refl) as [Hresult Hvalue].
  split; [exact Hresult |].
  apply (Hvalue [("x", McpServer2.Plain (JInt 1))] "x" (McpServer2.Plain (JInt 1))).
  - left. reflexivity.
  - repeat constructor. intros [].
  - left. reflexivity.
Defined.

Lemma join_repeats_columns_witness :
  option_map (fun info => List.length (McpServer2.columns info))
    (McpServer2.table "trips"
       (McpServer2.schema_cache
          (snd (McpServer2.initialize_database (driver := Sample.healthy_pool)
                  (catalog := Sample.catalog) Sample.unset))))
  = Some 4%nat.
Proof.
  change (McpServer2.schema_cache
            (snd (McpServer2.initialize_database (driver := Sample.healthy_pool)
                    (catalog := Sample.catalog) Sample.unset)))
    with (fold_left McpServer2.cache_row
            (flat_map
               (fun row =>
                  map (fun label => McpServer2.with_constraint label row)
                    ["PRIMARY KEY"; "CHECK"])
               [Sample.trips_column "id" "integer";
                Sample.trips_column "fare" "numeric"]) []).
  rewrite (join_repeats_columns "trips"
             [Sample.trips_column "id" "integer"; Sample.trips_column "fare" "numeric"]
             ["PRIMARY KEY"; "CHECK"]).
  - reflexivity.
  - discriminate.
  - discriminate.
  - repeat constructor.
  - repeat constructor; discriminate.
Defined.

Lemma get_schema_of_unlisted_table_witness :
  McpServer2.get_schema (runtime := Reference.runtime)
    (McpServer2.schema_cache
       (snd (McpServer2.initialize_database (driver := Sample.healthy_pool)
               (catalog := Sample.catalog) Sample.unset)))
    (Some "zones")
  = ("Schema for table 'zones':" ++ Text.nl ++ "{}")%string.
Proof.
  apply (get_schema_of_unlisted_table (runtime := Reference.runtime) []
           (flat_map
              (fun row =>
                 map (fun label => McpServer2.with_constraint label row)
                   ["PRIMARY KEY"; "CHECK"])
              [Sample.trips_column "id" "integer";
               Sample.trips_column "fare" "numeric"]) "zones").
  - discriminate.
  - reflexivity.
  - repeat constructor; discriminate.
Defined.
